(** * EKA2L1 bridged internet sockets: [inet_socket]

    A shallow embedding of
    [src/emu/services/src/internet/protocols/socket.cpp] and the
    properties of its socket session that the specification states.

    The session object is a record of the fields the methods touch.  Every
    method is a computation in a small state-and-fault monad over that
    record together with a trace of the externally visible effects, in
    program order: guest notifications completed, work handed to the
    looper thread, libuv calls made on the running thread, stores to
    guest memory, the owner lock.  A dereference of a null pointer, which
    is undefined behaviour in the source, is a fault of the monad. *)

From Stdlib Require Import ZArith List Bool Lia.
Import ListNotations.
Open Scope Z_scope.

(** ** Values shared with the guest and with libuv *)

(** Guest result codes, the enumerators of [epoc::error_*] ([utils/err.h])
    that this translation unit uses. *)
Inductive epoc_error : Type :=
| error_none
| error_not_ready
| error_in_use
| error_permission_denied
| error_argument
| error_not_supported
| error_server_busy
| error_timed_out
| error_general
| error_cancel
| error_eof.

Definition epoc_error_eqb (a b : epoc_error) : bool :=
  match a, b with
  | error_none, error_none | error_not_ready, error_not_ready
  | error_in_use, error_in_use
  | error_permission_denied, error_permission_denied
  | error_argument, error_argument | error_not_supported, error_not_supported
  | error_server_busy, error_server_busy | error_timed_out, error_timed_out
  | error_general, error_general | error_cancel, error_cancel
  | error_eof, error_eof => true
  | _, _ => false
  end.

(** Guest addresses (pointers into guest memory) and bytes. *)
Definition ptr := Z.
Definition byte := Z.

(** [epoc::socket::socket_type]: the two enumerators [open] names, and
    every other value of the enumeration. *)
Inductive socket_type : Type :=
| socket_type_datagram
| socket_type_stream
| socket_type_other (value : Z).

(** [epoc::socket::saddress] with the [sinet6_address] view of it.  In the
    source the IPv6 accessors read [user_data_]; here the three values
    they return are fields of their own. *)
Record saddress : Type := mk_saddress {
  family_ : Z;
  port_ : Z;
  user_data_ : list byte;
  get_flow : Z;
  get_scope : Z;
  get_address_32x4 : list byte
}.

(** The host's [sockaddr], a union tagged by [sa_family]. *)
Inductive sockaddr : Type :=
| sockaddr_in (sin_port : Z) (sin_addr : list byte)
| sockaddr_in6 (sin6_port sin6_flowinfo sin6_scope_id : Z)
               (sin6_addr : list byte)
| sockaddr_af (sa_family : Z).

(** Constants and host functions that the translation unit takes from
    headers which are not part of it: the protocol and family identifiers
    of [inet.h] and [socket.h], the receive flag, libuv's error numbers,
    the host's [htons] and the platform the build selects. *)
Class Constants : Type := {
  INET_UDP_PROTOCOL_ID : Z;
  INET_TCP_PROTOCOL_ID : Z;
  INET_ADDRESS_FAMILY : Z;
  INVALID_FAMILY_ID : Z;
  SOCKET_FLAG_DONT_WAIT_FULL : Z;
  UV_EOF : Z;
  UV_EACCES : Z;
  UV_EADDRINUSE : Z;
  UV_EADDRNOTAVAIL : Z;
  UV_EAFNOSUPPORT : Z;
  UV_ECONNREFUSED : Z;
  UV_ENOTSUP : Z;
  UV_ETIMEDOUT : Z;
  htons : Z -> Z;
  EKA2L1_PLATFORM_WIN32 : bool
}.

(** ** Completion notifications *)

(** Modelled from the spec: [epoc::notify_info] ([utils/reqsts.h], not in
    this translation unit) is "a single-shot, at-most-once-fulfilled
    result slot", "explicitly cleared on fulfillment so [InUse] checks are
    a simple presence test".  A slot is empty or holds the guest request
    it will complete. *)
Definition request := Z.
Definition notify_info := option request.

Definition empty (info : notify_info) : bool :=
  match info with None => true | Some _ => false end.

(** ** The stream accumulator *)

(** Modelled from the spec: [common::ring_buffer<char, 0x80000>]
    ([common/container.h], not in this translation unit) is a "bounded
    ring buffer of bytes with push(bytes), size(), and pop(n) -> bytes
    (n <= size)".  The spec does not say what a push beyond the capacity
    does; [rb_push] has no result there. *)
Definition ring_buffer := list byte.
Definition RING_CAPACITY : Z := 524288.

Definition rb_size (q : ring_buffer) : Z := Z.of_nat (length q).

Definition rb_push (q : ring_buffer) (data : list byte) : option ring_buffer :=
  if rb_size q + Z.of_nat (length data) <=? RING_CAPACITY
  then Some (q ++ data) else None.

Definition rb_pop (q : ring_buffer) (n : Z) : list byte * ring_buffer :=
  (firstn (Z.to_nat n) q, skipn (Z.to_nat n) q).

(** ** Effects *)

(** libuv handles and request records the session allocates. *)
Inductive uv_handle : Type := uv_tcp_t | uv_udp_t.
Inductive uv_req : Type := uv_connect_t | uv_udp_send_t | uv_write_t.

(** A unit of work given to the looper thread with [uv_async_init] and
    [uv_async_send]; each names the libuv call its callback makes. *)
Inductive loop_task : Type :=
| task_tcp_init
| task_udp_init
| task_close
| task_udp_connect (handle : option uv_handle) (addr : sockaddr)
| task_tcp_connect (addr : sockaddr)
| task_udp_send (handle : option uv_handle) (data : ptr) (len : Z)
                (addr : option sockaddr)
| task_write (data : ptr) (len : Z)
| task_udp_recv_start
| task_read_start
| task_udp_recv_stop
| task_read_stop.

(** A libuv or looper call made directly on the running thread. *)
Inductive direct_call : Type :=
| initialize_looper
| uv_udp_bind (addr : sockaddr)
| uv_tcp_bind (addr : sockaddr)
| uv_udp_recv_stop
| uv_read_stop.

Inductive event : Type :=
| Complete (r : request) (code : epoc_error)
| Post (t : loop_task)
| Call (c : direct_call)
| Store32 (p : ptr) (v : Z)
| Memcpy (dest : ptr) (src : list byte)
| ReceiveDoneCb (cb : Z) (arg : Z)
| Lock
| Unlock.

(** The snapshot [opaque_interface_info_] points to: a live list of
    interfaces, or a block that [free] has released while the pointer
    still holds its address. *)
Inductive interface_block : Type :=
| ifaddrs (entries : list Z)
| released.

(** ** The session object *)

Record inet_socket : Type := mk_inet_socket {
  opaque_handle_ : option uv_handle;
  protocol_ : Z;
  opaque_connect_ : option uv_req;
  opaque_send_info_ : option uv_req;
  opaque_write_info_ : option uv_req;
  connect_done_info_ : notify_info;
  send_done_info_ : notify_info;
  recv_done_info_ : notify_info;
  bytes_written_ : option ptr;
  bytes_read_ : option ptr;
  read_dest_ : ptr;
  recv_size_ : Z;
  take_available_only_ : bool;
  receive_done_cb_ : option Z;
  listen_addr_ : saddress;
  stream_data_buffer_ : option ring_buffer;
  temp_buffer_ : list byte;
  opaque_interface_info_ : option interface_block;
  opaque_interface_info_current_ : list Z
}.

(** Assignment to one member, the others kept. *)
Definition set_opaque_handle_ (v : option uv_handle) (o : inet_socket) : inet_socket :=
  mk_inet_socket v (protocol_ o) (opaque_connect_ o) (opaque_send_info_ o)
    (opaque_write_info_ o) (connect_done_info_ o) (send_done_info_ o)
    (recv_done_info_ o) (bytes_written_ o) (bytes_read_ o) (read_dest_ o)
    (recv_size_ o) (take_available_only_ o) (receive_done_cb_ o) (listen_addr_
    o) (stream_data_buffer_ o) (temp_buffer_ o) (opaque_interface_info_ o)
    (opaque_interface_info_current_ o).

Definition set_protocol_ (v : Z) (o : inet_socket) : inet_socket :=
  mk_inet_socket (opaque_handle_ o) v (opaque_connect_ o) (opaque_send_info_
    o) (opaque_write_info_ o) (connect_done_info_ o) (send_done_info_ o)
    (recv_done_info_ o) (bytes_written_ o) (bytes_read_ o) (read_dest_ o)
    (recv_size_ o) (take_available_only_ o) (receive_done_cb_ o) (listen_addr_
    o) (stream_data_buffer_ o) (temp_buffer_ o) (opaque_interface_info_ o)
    (opaque_interface_info_current_ o).

Definition set_opaque_connect_ (v : option uv_req) (o : inet_socket) : inet_socket :=
  mk_inet_socket (opaque_handle_ o) (protocol_ o) v (opaque_send_info_ o)
    (opaque_write_info_ o) (connect_done_info_ o) (send_done_info_ o)
    (recv_done_info_ o) (bytes_written_ o) (bytes_read_ o) (read_dest_ o)
    (recv_size_ o) (take_available_only_ o) (receive_done_cb_ o) (listen_addr_
    o) (stream_data_buffer_ o) (temp_buffer_ o) (opaque_interface_info_ o)
    (opaque_interface_info_current_ o).

Definition set_opaque_send_info_ (v : option uv_req) (o : inet_socket) : inet_socket :=
  mk_inet_socket (opaque_handle_ o) (protocol_ o) (opaque_connect_ o) v
    (opaque_write_info_ o) (connect_done_info_ o) (send_done_info_ o)
    (recv_done_info_ o) (bytes_written_ o) (bytes_read_ o) (read_dest_ o)
    (recv_size_ o) (take_available_only_ o) (receive_done_cb_ o) (listen_addr_
    o) (stream_data_buffer_ o) (temp_buffer_ o) (opaque_interface_info_ o)
    (opaque_interface_info_current_ o).

Definition set_opaque_write_info_ (v : option uv_req) (o : inet_socket) : inet_socket :=
  mk_inet_socket (opaque_handle_ o) (protocol_ o) (opaque_connect_ o)
    (opaque_send_info_ o) v (connect_done_info_ o) (send_done_info_ o)
    (recv_done_info_ o) (bytes_written_ o) (bytes_read_ o) (read_dest_ o)
    (recv_size_ o) (take_available_only_ o) (receive_done_cb_ o) (listen_addr_
    o) (stream_data_buffer_ o) (temp_buffer_ o) (opaque_interface_info_ o)
    (opaque_interface_info_current_ o).

Definition set_connect_done_info_ (v : notify_info) (o : inet_socket) : inet_socket :=
  mk_inet_socket (opaque_handle_ o) (protocol_ o) (opaque_connect_ o)
    (opaque_send_info_ o) (opaque_write_info_ o) v (send_done_info_ o)
    (recv_done_info_ o) (bytes_written_ o) (bytes_read_ o) (read_dest_ o)
    (recv_size_ o) (take_available_only_ o) (receive_done_cb_ o) (listen_addr_
    o) (stream_data_buffer_ o) (temp_buffer_ o) (opaque_interface_info_ o)
    (opaque_interface_info_current_ o).

Definition set_send_done_info_ (v : notify_info) (o : inet_socket) : inet_socket :=
  mk_inet_socket (opaque_handle_ o) (protocol_ o) (opaque_connect_ o)
    (opaque_send_info_ o) (opaque_write_info_ o) (connect_done_info_ o) v
    (recv_done_info_ o) (bytes_written_ o) (bytes_read_ o) (read_dest_ o)
    (recv_size_ o) (take_available_only_ o) (receive_done_cb_ o) (listen_addr_
    o) (stream_data_buffer_ o) (temp_buffer_ o) (opaque_interface_info_ o)
    (opaque_interface_info_current_ o).

Definition set_recv_done_info_ (v : notify_info) (o : inet_socket) : inet_socket :=
  mk_inet_socket (opaque_handle_ o) (protocol_ o) (opaque_connect_ o)
    (opaque_send_info_ o) (opaque_write_info_ o) (connect_done_info_ o)
    (send_done_info_ o) v (bytes_written_ o) (bytes_read_ o) (read_dest_ o)
    (recv_size_ o) (take_available_only_ o) (receive_done_cb_ o) (listen_addr_
    o) (stream_data_buffer_ o) (temp_buffer_ o) (opaque_interface_info_ o)
    (opaque_interface_info_current_ o).

Definition set_bytes_written_ (v : option ptr) (o : inet_socket) : inet_socket :=
  mk_inet_socket (opaque_handle_ o) (protocol_ o) (opaque_connect_ o)
    (opaque_send_info_ o) (opaque_write_info_ o) (connect_done_info_ o)
    (send_done_info_ o) (recv_done_info_ o) v (bytes_read_ o) (read_dest_ o)
    (recv_size_ o) (take_available_only_ o) (receive_done_cb_ o) (listen_addr_
    o) (stream_data_buffer_ o) (temp_buffer_ o) (opaque_interface_info_ o)
    (opaque_interface_info_current_ o).

Definition set_bytes_read_ (v : option ptr) (o : inet_socket) : inet_socket :=
  mk_inet_socket (opaque_handle_ o) (protocol_ o) (opaque_connect_ o)
    (opaque_send_info_ o) (opaque_write_info_ o) (connect_done_info_ o)
    (send_done_info_ o) (recv_done_info_ o) (bytes_written_ o) v (read_dest_
    o) (recv_size_ o) (take_available_only_ o) (receive_done_cb_ o)
    (listen_addr_ o) (stream_data_buffer_ o) (temp_buffer_ o)
    (opaque_interface_info_ o) (opaque_interface_info_current_ o).

Definition set_read_dest_ (v : ptr) (o : inet_socket) : inet_socket :=
  mk_inet_socket (opaque_handle_ o) (protocol_ o) (opaque_connect_ o)
    (opaque_send_info_ o) (opaque_write_info_ o) (connect_done_info_ o)
    (send_done_info_ o) (recv_done_info_ o) (bytes_written_ o) (bytes_read_ o)
    v (recv_size_ o) (take_available_only_ o) (receive_done_cb_ o)
    (listen_addr_ o) (stream_data_buffer_ o) (temp_buffer_ o)
    (opaque_interface_info_ o) (opaque_interface_info_current_ o).

Definition set_recv_size_ (v : Z) (o : inet_socket) : inet_socket :=
  mk_inet_socket (opaque_handle_ o) (protocol_ o) (opaque_connect_ o)
    (opaque_send_info_ o) (opaque_write_info_ o) (connect_done_info_ o)
    (send_done_info_ o) (recv_done_info_ o) (bytes_written_ o) (bytes_read_ o)
    (read_dest_ o) v (take_available_only_ o) (receive_done_cb_ o)
    (listen_addr_ o) (stream_data_buffer_ o) (temp_buffer_ o)
    (opaque_interface_info_ o) (opaque_interface_info_current_ o).

Definition set_take_available_only_ (v : bool) (o : inet_socket) : inet_socket :=
  mk_inet_socket (opaque_handle_ o) (protocol_ o) (opaque_connect_ o)
    (opaque_send_info_ o) (opaque_write_info_ o) (connect_done_info_ o)
    (send_done_info_ o) (recv_done_info_ o) (bytes_written_ o) (bytes_read_ o)
    (read_dest_ o) (recv_size_ o) v (receive_done_cb_ o) (listen_addr_ o)
    (stream_data_buffer_ o) (temp_buffer_ o) (opaque_interface_info_ o)
    (opaque_interface_info_current_ o).

Definition set_receive_done_cb_ (v : option Z) (o : inet_socket) : inet_socket :=
  mk_inet_socket (opaque_handle_ o) (protocol_ o) (opaque_connect_ o)
    (opaque_send_info_ o) (opaque_write_info_ o) (connect_done_info_ o)
    (send_done_info_ o) (recv_done_info_ o) (bytes_written_ o) (bytes_read_ o)
    (read_dest_ o) (recv_size_ o) (take_available_only_ o) v (listen_addr_ o)
    (stream_data_buffer_ o) (temp_buffer_ o) (opaque_interface_info_ o)
    (opaque_interface_info_current_ o).

Definition set_listen_addr_ (v : saddress) (o : inet_socket) : inet_socket :=
  mk_inet_socket (opaque_handle_ o) (protocol_ o) (opaque_connect_ o)
    (opaque_send_info_ o) (opaque_write_info_ o) (connect_done_info_ o)
    (send_done_info_ o) (recv_done_info_ o) (bytes_written_ o) (bytes_read_ o)
    (read_dest_ o) (recv_size_ o) (take_available_only_ o) (receive_done_cb_
    o) v (stream_data_buffer_ o) (temp_buffer_ o) (opaque_interface_info_ o)
    (opaque_interface_info_current_ o).

Definition set_stream_data_buffer_ (v : option ring_buffer) (o : inet_socket) : inet_socket :=
  mk_inet_socket (opaque_handle_ o) (protocol_ o) (opaque_connect_ o)
    (opaque_send_info_ o) (opaque_write_info_ o) (connect_done_info_ o)
    (send_done_info_ o) (recv_done_info_ o) (bytes_written_ o) (bytes_read_ o)
    (read_dest_ o) (recv_size_ o) (take_available_only_ o) (receive_done_cb_
    o) (listen_addr_ o) v (temp_buffer_ o) (opaque_interface_info_ o)
    (opaque_interface_info_current_ o).

Definition set_temp_buffer_ (v : list byte) (o : inet_socket) : inet_socket :=
  mk_inet_socket (opaque_handle_ o) (protocol_ o) (opaque_connect_ o)
    (opaque_send_info_ o) (opaque_write_info_ o) (connect_done_info_ o)
    (send_done_info_ o) (recv_done_info_ o) (bytes_written_ o) (bytes_read_ o)
    (read_dest_ o) (recv_size_ o) (take_available_only_ o) (receive_done_cb_
    o) (listen_addr_ o) (stream_data_buffer_ o) v (opaque_interface_info_ o)
    (opaque_interface_info_current_ o).

Definition set_opaque_interface_info_ (v : option interface_block) (o : inet_socket) : inet_socket :=
  mk_inet_socket (opaque_handle_ o) (protocol_ o) (opaque_connect_ o)
    (opaque_send_info_ o) (opaque_write_info_ o) (connect_done_info_ o)
    (send_done_info_ o) (recv_done_info_ o) (bytes_written_ o) (bytes_read_ o)
    (read_dest_ o) (recv_size_ o) (take_available_only_ o) (receive_done_cb_
    o) (listen_addr_ o) (stream_data_buffer_ o) (temp_buffer_ o) v
    (opaque_interface_info_current_ o).

Definition set_opaque_interface_info_current_ (v : list Z) (o : inet_socket) : inet_socket :=
  mk_inet_socket (opaque_handle_ o) (protocol_ o) (opaque_connect_ o)
    (opaque_send_info_ o) (opaque_write_info_ o) (connect_done_info_ o)
    (send_done_info_ o) (recv_done_info_ o) (bytes_written_ o) (bytes_read_ o)
    (read_dest_ o) (recv_size_ o) (take_available_only_ o) (receive_done_cb_
    o) (listen_addr_ o) (stream_data_buffer_ o) (temp_buffer_ o)
    (opaque_interface_info_ o) v.

(** ** The monad of the methods *)

Inductive fault : Type :=
| null_dereference
| accumulator_overflow.

Inductive result (A : Type) : Type :=
| Ok (a : A)
| Fault (f : fault).
Arguments Ok {A} a.
Arguments Fault {A} f.

Record state : Type := mk_state {
  self : inet_socket;
  trace : list event
}.

Definition M (A : Type) : Type := state -> result (A * state).

Definition ret {A : Type} (a : A) : M A := fun st => Ok (a, st).

Definition and_then {A B : Type} (c : M A) (k : A -> M B) : M B :=
  fun st => match c st with
            | Ok (a, st') => k a st'
            | Fault f => Fault f
            end.

Notation "x <- c ;; k" := (and_then c (fun x => k))
  (at level 61, c at next level, right associativity).
Notation "c ;; k" := (and_then c (fun _ => k))
  (at level 61, right associativity).

Definition this : M inet_socket := fun st => Ok (self st, st).

Definition assign (f : inet_socket -> inet_socket) : M unit :=
  fun st => Ok (tt, mk_state (f (self st)) (trace st)).

Definition emit (e : event) : M unit :=
  fun st => Ok (tt, mk_state (self st) (trace st ++ [e])).

Definition crash {A : Type} (f : fault) : M A := fun _ => Fault f.

(** The trace up to this point. *)
Definition events_so_far : M (list event) := fun st => Ok (trace st, st).

Definition when (b : bool) (c : M unit) : M unit := if b then c else ret tt.

Definition non_null {A : Type} (p : option A) : bool :=
  match p with Some _ => true | None => false end.

(** Reading through a pointer. *)
Definition deref {A : Type} (p : option A) : M A :=
  match p with Some a => ret a | None => crash null_dereference end.

(** Conversion to [std::uint32_t] and to [std::uint16_t]. *)
Definition u32 (x : Z) : Z := x mod 4294967296.
Definition u16 (x : Z) : Z := x mod 65536.

(** [memcmp(a, b, n) == 0]. *)
Fixpoint bytes_eqb (a b : list byte) : bool :=
  match a, b with
  | [], [] => true
  | x :: a', y :: b' => (x =? y) && bytes_eqb a' b'
  | _, _ => false
  end.

Definition memcmp_zero (a b : list byte) (n : nat) : bool :=
  bytes_eqb (firstn n a) (firstn n b).

(** Modelled from the spec: [notify_info::complete] fulfils the slot "at
    most once": on an empty slot it does nothing, otherwise it completes
    the guest request and empties the slot.  [complete] is the call on
    the caller's own object, [complete_member] the call on one of the
    session's three slots. *)
Definition complete (info : notify_info) (code : epoc_error) : M unit :=
  match info with
  | Some r => emit (Complete r code)
  | None => ret tt
  end.

Definition complete_member (get : inet_socket -> notify_info)
    (set : notify_info -> inet_socket -> inet_socket)
    (code : epoc_error) : M unit :=
  o <- this ;;
  complete (get o) code ;;
  assign (set None).

(** [kern->lock()] and [kern->unlock()] on the owner obtained from the
    requester of a notification; [kern] is null when there was none. *)
Definition lock (kern : option unit) : M unit :=
  deref kern ;; emit Lock.

Definition unlock (kern : option unit) : M unit :=
  deref kern ;; emit Unlock.

Section Methods.
Context {K : Constants}.

(** ** Opening *)

(** [inet_socket::open].  [init_result] is what [uv_tcp_init] or
    [uv_udp_init] returns on the looper thread ([params.result_]); the
    caller waits for it on [open_event_]. *)
Definition open (family_id protocol_id : Z) (sock_type : socket_type)
    (init_result : Z) : M bool :=
  let legal :=
    match sock_type with
    | socket_type_datagram => protocol_id =? INET_UDP_PROTOCOL_ID
    | socket_type_stream => protocol_id =? INET_TCP_PROTOCOL_ID
    | socket_type_other _ => false
    end in
  if negb legal then ret false
  else
    o <- this ;;
    if non_null (opaque_handle_ o) then ret false
    else
      (if protocol_id =? INET_TCP_PROTOCOL_ID
       then assign (set_opaque_handle_ (Some uv_tcp_t)) ;;
            emit (Post task_tcp_init)
       else assign (set_opaque_handle_ (Some uv_udp_t)) ;;
            emit (Post task_udp_init)) ;;
      emit (Call initialize_looper) ;;
      if init_result <? 0 then ret false
      else assign (set_protocol_ protocol_id) ;; ret true.

(** ** Connecting and binding *)

(** [inet_socket::handle_connect_done_error_code]. *)
Definition handle_connect_done_error_code (error_code : Z) : M unit :=
  o <- this ;;
  if empty (connect_done_info_ o) then ret tt
  else if error_code =? 0
  then complete_member connect_done_info_ set_connect_done_info_ error_none
  else
    let guest_error_code :=
      if error_code =? UV_EACCES then error_permission_denied
      else if error_code =? UV_EADDRINUSE then error_in_use
      else if error_code =? UV_EADDRNOTAVAIL then error_argument
      else if error_code =? UV_EAFNOSUPPORT then error_not_supported
      else if error_code =? UV_ECONNREFUSED then error_server_busy
      else if error_code =? UV_ENOTSUP then error_not_supported
      else if error_code =? UV_ETIMEDOUT then error_timed_out
      else error_general in
    complete_member connect_done_info_ set_connect_done_info_ guest_error_code.

(** The macro [GUEST_TO_BSD_ADDR]. *)
Definition GUEST_TO_BSD_ADDR (addr : saddress) : sockaddr :=
  if family_ addr =? INET_ADDRESS_FAMILY
  then sockaddr_in (htons (u16 (port_ addr))) (firstn 4 (user_data_ addr))
  else sockaddr_in6 (htons (u16 (port_ addr))) (get_flow addr)
         (get_scope addr) (firstn 16 (get_address_32x4 addr)).

(** [inet_socket::complete_connect_done_info]. *)
Definition complete_connect_done_info (err : Z) : M unit :=
  o <- this ;;
  if empty (connect_done_info_ o) then ret tt
  else handle_connect_done_error_code err.

(** [inet_socket::connect]. *)
Definition connect (addr : saddress) (info : notify_info) : M unit :=
  o <- this ;;
  if negb (non_null (opaque_handle_ o))
  then complete info error_not_ready
  else if negb (empty (connect_done_info_ o))
  then complete info error_in_use
  else
    let ip_addr := GUEST_TO_BSD_ADDR addr in
    assign (set_connect_done_info_ info) ;;
    if protocol_ o =? INET_UDP_PROTOCOL_ID
    then emit (Post (task_udp_connect (opaque_handle_ o) ip_addr))
    else
      deref (opaque_handle_ o) ;;
      when (negb (non_null (opaque_connect_ o)))
        (assign (set_opaque_connect_ (Some uv_connect_t))) ;;
      emit (Post (task_tcp_connect ip_addr)).

(** [inet_socket::bind].  [bind_result] is the value [uv_udp_bind] or
    [uv_tcp_bind] returns; the method does not look at it. *)
Definition bind (addr : saddress) (info : notify_info) (bind_result : Z)
    : M unit :=
  o <- this ;;
  if negb (non_null (opaque_handle_ o))
  then complete info error_not_ready
  else
    let ip_addr := GUEST_TO_BSD_ADDR addr in
    (if protocol_ o =? INET_UDP_PROTOCOL_ID
     then emit (Call (uv_udp_bind ip_addr))
     else emit (Call (uv_tcp_bind ip_addr))) ;;
    complete info error_none.

(** ** Sending *)

(** [inet_socket::complete_send_done_info]. *)
Definition complete_send_done_info (err : Z) : M unit :=
  o <- this ;;
  if negb (empty (send_done_info_ o))
  then
    let kern := Some tt in
    lock kern ;;
    (if negb (err =? 0)
     then complete_member send_done_info_ set_send_done_info_ error_general
     else complete_member send_done_info_ set_send_done_info_ error_none) ;;
    assign (set_bytes_written_ None) ;;
    unlock kern
  else ret tt.

(** ** Closing *)

(** A callback that libuv makes on the looper for a request of the
    handle that is still in flight when the handle is closed: the
    connect callback (lines 381-383) and the send or write callback
    (lines 537-539 and 578-580), each with the status libuv gives it. *)
Inductive request_callback : Type :=
| connect_cb (status : Z)
| send_cb (status : Z).

Definition run_request_callback (cb : request_callback) : M unit :=
  match cb with
  | connect_cb status => complete_connect_done_info status
  | send_cb status => complete_send_done_info status
  end.

Fixpoint run_request_callbacks (cbs : list request_callback) : M unit :=
  match cbs with
  | [] => ret tt
  | cb :: later => run_request_callback cb ;; run_request_callbacks later
  end.

(** [inet_socket::close_down].  The caller posts the [uv_close] of the
    handle and waits on [exit_event_].  On the looper libuv closes the
    handle, calls back the requests still in flight on it, [in_flight],
    in order, and then makes the close callback that ends the wait. *)
Definition close_down (in_flight : list request_callback) : M unit :=
  o <- this ;;
  when (non_null (opaque_handle_ o))
    (emit (Post task_close) ;;
     run_request_callbacks in_flight ;;
     assign (set_opaque_handle_ None) ;;
     assign (set_protocol_ 0)) ;;
  o <- this ;;
  when (non_null (opaque_connect_ o)) (assign (set_opaque_connect_ None)) ;;
  o <- this ;;
  when (non_null (opaque_send_info_ o)) (assign (set_opaque_send_info_ None)) ;;
  o <- this ;;
  when (non_null (opaque_write_info_ o)) (assign (set_opaque_write_info_ None)).

(** [inet_socket::send]. *)
Definition send (data : ptr) (data_size : Z) (sent_size : option ptr)
    (addr_ptr : option saddress) (flags : Z) (complete_info : notify_info)
    : M unit :=
  o <- this ;;
  if negb (empty (send_done_info_ o))
  then complete complete_info error_in_use
  else
    let ip_addr_ptr := option_map GUEST_TO_BSD_ADDR addr_ptr in
    assign (set_bytes_written_ sent_size) ;;
    match sent_size with
    | Some p => emit (Store32 p data_size)
    | None => ret tt
    end ;;
    assign (set_send_done_info_ complete_info) ;;
    if protocol_ o =? INET_UDP_PROTOCOL_ID
    then
      when (negb (non_null (opaque_send_info_ o)))
        (assign (set_opaque_send_info_ (Some uv_udp_send_t))) ;;
      emit (Post (task_udp_send (opaque_handle_ o) data (u32 data_size)
                    ip_addr_ptr))
    else
      when (negb (non_null (opaque_write_info_ o)))
        (assign (set_opaque_write_info_ (Some uv_write_t))) ;;
      deref (opaque_connect_ o) ;;
      emit (Post (task_write data (u32 data_size))).

(** ** Receiving *)

(** [is_same_address]; it reads through [addr_to_check]. *)
Definition is_same_address (addr_requested : saddress)
    (addr_to_check : sockaddr) : bool :=
  if family_ addr_requested =? INET_ADDRESS_FAMILY
  then
    match addr_to_check with
    | sockaddr_in sin_port sin_addr =>
        if negb (sin_port =? port_ addr_requested)
           || negb (memcmp_zero sin_addr (user_data_ addr_requested) 4)
        then false else true
    | _ => false
    end
  else
    match addr_to_check with
    | sockaddr_in6 sin6_port sin6_flowinfo sin6_scope_id sin6_addr =>
        if negb (sin6_port =? port_ addr_requested)
           || negb (sin6_scope_id =? get_scope addr_requested)
           || negb (sin6_flowinfo =? get_flow addr_requested)
           || negb (memcmp_zero sin6_addr
                      (get_address_32x4 addr_requested) 16)
        then false else true
    | _ => false
    end.

(** [inet_socket::prepare_buffer_for_recv], together with the host
    writing the arriving bytes into the buffer it was handed
    ([buf->base] is [temp_buffer_.data()]). *)
Definition prepare_buffer_for_recv (arriving : list byte) : M unit :=
  assign (set_temp_buffer_ arriving).

(** [inet_socket::handle_udp_delivery].  [addr] is null when libuv has
    no sender to report. *)
Definition handle_udp_delivery (bytes_read_arg : Z) (addr : option sockaddr)
    : M unit :=
  o <- this ;;
  matched <-
    (if negb (family_ (listen_addr_ o) =? INVALID_FAMILY_ID)
     then recv_addr <- deref addr ;;
          ret (is_same_address (listen_addr_ o) recv_addr)
     else ret true) ;;
  if negb matched then ret tt
  else
    emit (Call uv_udp_recv_stop) ;;
    let kern := if negb (empty (recv_done_info_ o)) then Some tt else None in
    error_code <-
      (if bytes_read_arg =? UV_EOF then ret error_eof
       else if bytes_read_arg <? 0 then ret error_general
       else
         let to_write_byte_count := Z.min bytes_read_arg (recv_size_ o) in
         emit (Memcpy (read_dest_ o)
                 (firstn (Z.to_nat to_write_byte_count) (temp_buffer_ o))) ;;
         match bytes_read_ o with
         | Some p => emit (Store32 p (u32 to_write_byte_count))
         | None => ret tt
         end ;;
         ret error_none) ;;
    lock kern ;;
    when (negb (empty (recv_done_info_ o)))
      (complete_member recv_done_info_ set_recv_done_info_ error_code) ;;
    unlock kern.

(** [inet_socket::handle_tcp_delivery]; [buf] is the content of
    [buf->base].  The result tells whether the handler ran to its end
    ([true]) or left at the [return] that keeps accumulating ([false]). *)
Definition handle_tcp_delivery (bytes_read_arg : Z) (buf : list byte)
    : M bool :=
  o <- this ;;
  let kern := if negb (empty (recv_done_info_ o)) then Some tt else None in
  proceed <-
    (if bytes_read_arg =? UV_EOF then ret (Some error_eof)
     else if bytes_read_arg <? 0 then ret (Some error_general)
     else if take_available_only_ o && (bytes_read_arg <? recv_size_ o)
     then
       emit (Memcpy (read_dest_ o) (firstn (Z.to_nat bytes_read_arg) buf)) ;;
       match bytes_read_ o with
       | Some p => emit (Store32 p (u32 bytes_read_arg))
       | None => ret tt
       end ;;
       ret (Some error_none)
     else
       let queue :=
         match stream_data_buffer_ o with Some q => q | None => [] end in
       match rb_push queue (firstn (Z.to_nat bytes_read_arg) buf) with
       | None => crash accumulator_overflow
       | Some pushed =>
           assign (set_stream_data_buffer_ (Some pushed)) ;;
           if take_available_only_ o || (recv_size_ o <=? rb_size pushed)
           then
             let (got_data, rest) :=
               rb_pop pushed (Z.min (recv_size_ o) (rb_size pushed)) in
             assign (set_stream_data_buffer_ (Some rest)) ;;
             emit (Memcpy (read_dest_ o) got_data) ;;
             match bytes_read_ o with
             | Some p => emit (Store32 p (u32 (Z.of_nat (length got_data))))
             | None => ret tt
             end ;;
             ret (Some error_none)
           else ret None
       end) ;;
  match proceed with
  | None => ret false
  | Some error_code =>
      deref (opaque_connect_ o) ;;
      emit (Call uv_read_stop) ;;
      lock kern ;;
      match receive_done_cb_ o with
      | Some cb =>
          emit (ReceiveDoneCb cb bytes_read_arg) ;;
          assign (set_receive_done_cb_ None)
      | None => ret tt
      end ;;
      when (negb (empty (recv_done_info_ o)))
        (complete_member recv_done_info_ set_recv_done_info_ error_code) ;;
      unlock kern ;;
      ret true
  end.

(** [inet_socket::receive]. *)
Definition receive (data : ptr) (data_size : Z) (recv_size : option ptr)
    (addr_ptr : option saddress) (flags : Z) (complete_info : notify_info)
    (callback : option Z) : M unit :=
  o <- this ;;
  if negb (empty (recv_done_info_ o))
  then complete complete_info error_in_use
  else
    assign (set_bytes_read_ recv_size) ;;
    assign (set_read_dest_ data) ;;
    assign (set_recv_size_ data_size) ;;
    assign (set_take_available_only_ false) ;;
    assign (set_receive_done_cb_ callback) ;;
    when (negb (Z.land flags SOCKET_FLAG_DONT_WAIT_FULL =? 0))
      (assign (set_take_available_only_ true)) ;;
    assign (set_recv_done_info_ complete_info) ;;
    assign (fun o' =>
      let a := listen_addr_ o' in
      set_listen_addr_
        (mk_saddress INVALID_FAMILY_ID (port_ a) (user_data_ a) (get_flow a)
           (get_scope a) (get_address_32x4 a)) o') ;;
    if protocol_ o =? INET_UDP_PROTOCOL_ID
    then
      match addr_ptr with
      | Some a => assign (set_listen_addr_ a)
      | None => ret tt
      end ;;
      deref (opaque_handle_ o) ;;
      emit (Post task_udp_recv_start)
    else
      o <- this ;;
      match stream_data_buffer_ o with
      | Some q =>
          if negb (rb_size q =? 0)
          then
            if take_available_only_ o || (rb_size q <=? data_size)
            then
              let size_to_pop := Z.min data_size (rb_size q) in
              let (data_result, rest) := rb_pop q size_to_pop in
              assign (set_stream_data_buffer_ (Some rest)) ;;
              match recv_size with
              | Some p => emit (Store32 p (u32 size_to_pop))
              | None => ret tt
              end ;;
              emit (Memcpy data data_result) ;;
              match receive_done_cb_ o with
              | Some cb =>
                  emit (ReceiveDoneCb cb size_to_pop) ;;
                  assign (set_receive_done_cb_ None)
              | None => ret tt
              end ;;
              complete_member recv_done_info_ set_recv_done_info_ error_none
            else ret tt
          else
            deref (opaque_connect_ o) ;;
            emit (Post task_read_start)
      | None =>
          deref (opaque_connect_ o) ;;
          emit (Post task_read_start)
      end.

(** [inet_socket::cancel_receive], [cancel_send], [cancel_connect]. *)
Definition cancel_receive : M unit :=
  o <- this ;;
  if empty (recv_done_info_ o) then ret tt
  else
    (if protocol_ o =? INET_UDP_PROTOCOL_ID
     then emit (Post task_udp_recv_stop)
     else emit (Post task_read_stop)) ;;
    assign (set_receive_done_cb_ None) ;;
    complete_member recv_done_info_ set_recv_done_info_ error_cancel.

Definition cancel_send : M unit :=
  complete_member send_done_info_ set_send_done_info_ error_cancel.

Definition cancel_connect : M unit :=
  complete_member connect_done_info_ set_connect_done_info_ error_cancel.

End Methods.

(** ** Interface enumeration *)

(** What one query of the host for its adapters reports:
    [GetAdaptersAddresses] returning [ERROR_SUCCESS],
    [ERROR_BUFFER_OVERFLOW] or another code; [getifaddrs] returning zero
    or a negative value. *)
Inductive query_result : Type :=
| query_success (entries : list Z)
| query_buffer_overflow
| query_error (code : Z).

Section InterfaceEnumerator.
Context {K : Constants}.

(** The [do { ... } while (true)] of the WIN32 build.  [host n] is the
    result of the [n]-th query; the loop has no bound of its own, so the
    model counts iterations down from [fuel] and has no result when they
    run out.  The block is modelled by what the host has written to it:
    the model is exact for the queries up to the first answer that is
    not an overflow.  What a success after an overflow leaves in the
    heap (the query is repeated with the size the host asked for and the
    block of the first size) is not modelled. *)
Fixpoint query_adapters (fuel : nat) (host : nat -> query_result) (n : nat)
    (o : inet_socket) : option (bool * inet_socket) :=
  match fuel with
  | O => None
  | S fuel' =>
      match host n with
      | query_success entries =>
          Some (true, set_opaque_interface_info_ (Some (ifaddrs entries)) o)
      | query_buffer_overflow =>
          query_adapters fuel' host (S n)
            (set_opaque_interface_info_ (Some (ifaddrs [])) o)
      | query_error _ =>
          Some (false, set_opaque_interface_info_ (Some released) o)
      end
  end.

(** [inet_socket::start_enumerate_network_interfaces].  [getifaddrs]
    stores a null pointer for an empty list.  The release of the earlier
    snapshot is modelled for a live block; what [free] does with a
    pointer that dangles is not. *)
Definition start_enumerate_network_interfaces (fuel : nat)
    (host : nat -> query_result) (o : inet_socket)
    : option (bool * inet_socket) :=
  let o := if non_null (opaque_interface_info_ o)
           then set_opaque_interface_info_ None o else o in
  let queried :=
    if EKA2L1_PLATFORM_WIN32
    then query_adapters fuel host 0
           (set_opaque_interface_info_ (Some (ifaddrs [])) o)
    else
      match host O with
      | query_success entries =>
          Some (true,
                set_opaque_interface_info_
                  (match entries with
                   | [] => None
                   | _ :: _ => Some (ifaddrs entries)
                   end) o)
      | _ => Some (false, o)
      end in
  match queried with
  | Some (true, o') =>
      Some (true,
            set_opaque_interface_info_current_
              (match opaque_interface_info_ o' with
               | Some (ifaddrs entries) => entries
               | _ => []
               end) o')
  | other => other
  end.

End InterfaceEnumerator.

(** ** Running a computation *)

Definition run {A : Type} (c : M A) (o : inet_socket) : result (A * state) :=
  c (mk_state o []).

(** The events of a run, when it has a result. *)
Definition events_of {A : Type} (r : result (A * state)) : list event :=
  match r with
  | Ok (_, st) => trace st
  | Fault _ => []
  end.

Definition is_completion (e : event) : bool :=
  match e with Complete _ _ => true | _ => false end.

Definition is_post (e : event) : bool :=
  match e with Post _ => true | _ => false end.

Definition completions (tr : list event) : list event :=
  filter is_completion tr.

Definition posted (tr : list event) : list event := filter is_post tr.

(** ** Concrete hosts *)

(** The host's [htons] on a little-endian machine. *)
Definition swap16 (x : Z) : Z := (x mod 256) * 256 + (x / 256) mod 256.

(** A little-endian Linux host for the concrete runs.  libuv's error
    numbers are the negated errno values there, and the protocol
    identifiers are the protocol numbers of UDP and TCP; the other guest
    identifiers are given distinct values, and no theorem depends on
    which. *)
Definition linux_host : Constants := {|
  INET_UDP_PROTOCOL_ID := 17;
  INET_TCP_PROTOCOL_ID := 6;
  INET_ADDRESS_FAMILY := 2048;
  INVALID_FAMILY_ID := 4294967295;
  SOCKET_FLAG_DONT_WAIT_FULL := 2147483648;
  UV_EOF := -4095;
  UV_EACCES := -13;
  UV_EADDRINUSE := -98;
  UV_EADDRNOTAVAIL := -99;
  UV_EAFNOSUPPORT := -97;
  UV_ECONNREFUSED := -111;
  UV_ENOTSUP := -95;
  UV_ETIMEDOUT := -110;
  htons := swap16;
  EKA2L1_PLATFORM_WIN32 := false
|}.

(** A Windows host, with libuv's own numbering of the error codes. *)
Definition windows_host : Constants := {|
  INET_UDP_PROTOCOL_ID := 17;
  INET_TCP_PROTOCOL_ID := 6;
  INET_ADDRESS_FAMILY := 2048;
  INVALID_FAMILY_ID := 4294967295;
  SOCKET_FLAG_DONT_WAIT_FULL := 2147483648;
  UV_EOF := -4095;
  UV_EACCES := -4092;
  UV_EADDRINUSE := -4091;
  UV_EADDRNOTAVAIL := -4090;
  UV_EAFNOSUPPORT := -4089;
  UV_ECONNREFUSED := -4078;
  UV_ENOTSUP := -4049;
  UV_ETIMEDOUT := -4039;
  htons := swap16;
  EKA2L1_PLATFORM_WIN32 := true
|}.

(** ** Concrete sessions *)

Definition no_address : saddress :=
  mk_saddress 4294967295 0 [] 0 0 [].

(** A session with no native handle, nothing allocated and nothing
    pending; [protocol_] is 0, as [close_down] leaves it. *)
Definition unopened : inet_socket :=
  mk_inet_socket None 0 None None None None None None None None 0 0 false
    None no_address None [] None [].

(** An opened and connected stream session of [linux_host]. *)
Definition stream_session : inet_socket :=
  set_opaque_connect_ (Some uv_connect_t)
    (set_protocol_ 6 (set_opaque_handle_ (Some uv_tcp_t) unopened)).

(** An opened datagram session of [linux_host]. *)
Definition datagram_session : inet_socket :=
  set_protocol_ 17 (set_opaque_handle_ (Some uv_udp_t) unopened).

(** A stream session with a connect, a send and a receive pending, for
    the guest requests 101, 102 and 103. *)
Definition busy_session : inet_socket :=
  set_recv_done_info_ (Some 103)
    (set_send_done_info_ (Some 102)
       (set_connect_done_info_ (Some 101) stream_session)).

(** The guest address 10.0.0.1, port 80. *)
Definition peer_10_0_0_1_80 : saddress :=
  mk_saddress 2048 80 [10; 0; 0; 1] 0 0 [].

(** ** Reading a trace *)

(** Whether an event completes request [r] with [code], and how often a
    trace does so. *)
Definition completes (r : request) (code : epoc_error) (e : event) : bool :=
  match e with
  | Complete r' c => (r' =? r) && epoc_error_eqb c code
  | _ => false
  end.

Definition times_completed (r : request) (code : epoc_error)
    (tr : list event) : nat :=
  length (filter (completes r code) tr).

(** Whether a callback is that of a connect request, or of a send or
    write request. *)
Definition is_connect_cb (cb : request_callback) : bool :=
  match cb with connect_cb _ => true | send_cb _ => false end.

Definition is_send_cb (cb : request_callback) : bool :=
  match cb with send_cb _ => true | connect_cb _ => false end.

(** How many of the notification slots given hold a pending request. *)
Definition pending (slots : list notify_info) : nat :=
  length (filter (fun info => negb (empty info)) slots).

(** The members that the callbacks of the connect and send requests
    assign: the two notification slots and [bytes_written_]. *)
Definition called_back (c s : notify_info) (w : option ptr)
    (o : inet_socket) : inet_socket :=
  set_bytes_written_ w (set_send_done_info_ s (set_connect_done_info_ c o)).

(** What the callbacks of the requests in flight, run on session [o],
    tell the guest: [c] and [s] are the connect and send slots they
    leave and [new] the events they add.  A slot is emptied when a
    callback of its kind was made; nothing is posted; nothing is
    completed with [error_cancel]; what is completed was pending in one
    of the two slots, and each completion takes one pending notification
    away. *)
Definition callbacks_report (o : inet_socket) (cbs : list request_callback)
    (c s : notify_info) (new : list event) : Prop :=
  c = (if existsb is_connect_cb cbs then None else connect_done_info_ o)
  /\ s = (if existsb is_send_cb cbs then None else send_done_info_ o)
  /\ posted new = []
  /\ (forall r, times_completed r error_cancel new = 0%nat)
  /\ (forall r code, In (Complete r code) new ->
        connect_done_info_ o = Some r \/ send_done_info_ o = Some r)
  /\ (length (completions new) + pending [c; s]
      = pending [connect_done_info_ o; send_done_info_ o])%nat.

(** The request records freed, as [close_down] leaves them. *)
Definition closed (o : inet_socket) : inet_socket :=
  set_opaque_write_info_ None
    (set_opaque_send_info_ None (set_opaque_connect_ None o)).

(** The pairs of socket type and protocol that [open] accepts, in the
    words of the specification: datagram with UDP, stream with TCP. *)
Definition legal_pair {K : Constants} (sock_type : socket_type)
    (protocol_id : Z) : Prop :=
  (sock_type = socket_type_datagram /\ protocol_id = INET_UDP_PROTOCOL_ID)
  \/ (sock_type = socket_type_stream /\ protocol_id = INET_TCP_PROTOCOL_ID).

(** The seven libuv codes that the [switch] of
    [handle_connect_done_error_code] names.  The labels of a [switch]
    are distinct, and none of them is the success code 0. *)
Definition switch_labels {K : Constants} : list Z :=
  [UV_EACCES; UV_EADDRINUSE; UV_EADDRNOTAVAIL; UV_EAFNOSUPPORT;
   UV_ECONNREFUSED; UV_ENOTSUP; UV_ETIMEDOUT].

(** The result codes as the specification names them (its section 7),
    for the comparison with the codes of the source: there [InUse] and
    [AddressInUse] are two codes. *)
Inductive guest_result : Type :=
| NoError
| NotReady
| InUse
| Argument
| NotSupported
| PermissionDenied
| AddressInUse
| ServerBusy
| TimedOut
| Cancel
| Eof
| General.

(** The datagram session of [linux_host] once [receive] has been called
    for 16 bytes with the filter 10.0.0.1, port 80, and request 7. *)
Definition listening_session : inet_socket :=
  set_listen_addr_ peer_10_0_0_1_80
    (set_recv_done_info_ (Some 7)
       (set_recv_size_ 16
          (set_read_dest_ 1000
             (set_bytes_read_ (Some 2000) datagram_session)))).

(** A session whose connect is still pending, for request 101, after
    [close_down] has taken its native handle away. *)
Definition orphaned_connect_session : inet_socket :=
  set_connect_done_info_ (Some 101) unopened.

(** The stream session with twelve bytes, or two, in the accumulator. *)
Definition twelve_buffered : inet_socket :=
  set_stream_data_buffer_ (Some [1; 2; 3; 4; 5; 6; 7; 8; 9; 10; 11; 12])
    stream_session.

Definition two_buffered : inet_socket :=
  set_stream_data_buffer_ (Some [11; 12]) stream_session.

(** * The rest of the translation unit *)

(** ** Names *)

(** The host side of [local_name] and [remote_name]: what libuv's four
    name queries answer for a handle (the error code and the address
    written to [sock_max]), and [host_sockaddr_to_guest_saddress], which
    is defined outside this translation unit and gives the guest address
    and its length. *)
Class NameHost : Type := {
  uv_udp_getsockname : uv_handle -> Z * sockaddr;
  uv_tcp_getsockname : uv_handle -> Z * sockaddr;
  uv_udp_getpeername : uv_handle -> Z * sockaddr;
  uv_tcp_getpeername : uv_handle -> Z * sockaddr;
  host_sockaddr_to_guest_saddress : sockaddr -> saddress * Z
}.

Section Names.
Context {K : Constants} {H : NameHost}.



End Names.

(** ** Options *)

(** The option identifiers of [inet.h] and the size of one
    [inet_interface_info]. *)
Class OptionIds : Type := {
  INET_INTERFACE_CONTROL_OPT_FAMILY : Z;
  INET_NEXT_INTERFACE_OPT : Z;
  INET_ENUM_INTERFACES_OPT : Z;
  sizeof_inet_interface_info : Z
}.

(** What [get_option] returns: an error made with
    [MAKE_SOCKET_GETOPT_ERROR], the size of the entry it wrote to the
    buffer together with that entry, or whatever the base class
    [socket::get_option] answers. *)
Inductive getopt_result : Type :=
| getopt_error (code : epoc_error)
| getopt_entry (entry : Z) (size : Z)
| getopt_base.

(** What [set_option] returns: the result of the enumeration request, or
    whatever the base class [socket::set_option] answers. *)
Inductive setopt_result : Type :=
| setopt_done (ok : bool)
| setopt_base.

Section Options.
Context {K : Constants} {I : OptionIds}.

(** [inet_socket::retrieve_next_interface_info].  It has no result where
    it would read an entry out of a block that has been released. *)
Definition retrieve_next_interface_info (avail_size : Z) (o : inet_socket)
    : option (getopt_result * inet_socket) :=
  match opaque_interface_info_ o with
  | None => Some (getopt_error error_not_ready, o)
  | Some block =>
      match opaque_interface_info_current_ o with
      | [] => Some (getopt_error error_eof, o)
      | entry :: next =>
          if negb (avail_size =? sizeof_inet_interface_info)
          then Some (getopt_error error_argument, o)
          else
            match block with
            | released => None
            | ifaddrs _ =>
                Some (getopt_entry entry sizeof_inet_interface_info,
                      set_opaque_interface_info_current_ next o)
            end
      end
  end.

(** [inet_socket::get_option]. *)
Definition get_option (option_id option_family : Z) (avail_size : Z)
    (o : inet_socket) : option (getopt_result * inet_socket) :=
  if (option_family =? INET_INTERFACE_CONTROL_OPT_FAMILY)
     && (option_id =? INET_NEXT_INTERFACE_OPT)
  then retrieve_next_interface_info avail_size o
  else Some (getopt_base, o).

(** [inet_socket::set_option]; [fuel] and [host] are those of
    [start_enumerate_network_interfaces]. *)
Definition set_option (option_id option_family : Z) (fuel : nat)
    (host : nat -> query_result) (o : inet_socket)
    : option (setopt_result * inet_socket) :=
  if (option_family =? INET_INTERFACE_CONTROL_OPT_FAMILY)
     && (option_id =? INET_ENUM_INTERFACES_OPT)
  then
    match start_enumerate_network_interfaces fuel host o with
    | Some (ok, o') => Some (setopt_done ok, o')
    | None => None
    end
  else Some (setopt_base, o).

(** [count] calls of [get_option] for the next interface, one after the
    other, with a buffer of [avail_size] bytes. *)
Fixpoint next_interfaces (count : nat) (avail_size : Z) (o : inet_socket)
    : option (list getopt_result * inet_socket) :=
  match count with
  | O => Some ([], o)
  | S count' =>
      match get_option INET_NEXT_INTERFACE_OPT
              INET_INTERFACE_CONTROL_OPT_FAMILY avail_size o with
      | None => None
      | Some (answer, o') =>
          match next_interfaces count' avail_size o' with
          | None => None
          | Some (answers, o'') => Some (answer :: answers, o'')
          end
      end
  end.

End Options.

(** ** Creating a socket *)

Section Creation.
Context {K : Constants}.

(** [inet_socket::~inet_socket]: [close_down], then the interface
    snapshot is released. *)
Definition destructor (in_flight : list request_callback) : M unit :=
  close_down in_flight ;;
  o <- this ;;
  when (non_null (opaque_interface_info_ o))
    (assign (set_opaque_interface_info_ (Some released))).

(** [inet_bridged_protocol::make_socket], run on the object that
    [std::make_unique<inet_socket>] has constructed.  The value is the
    socket returned, or [None] for [nullptr], in which case the object
    has been destroyed; no request has been started on it, so none is
    in flight when its handle is closed. *)
Definition make_socket (family_id protocol_id : Z) (sock_type : socket_type)
    (init_result : Z) : M (option inet_socket) :=
  opened <- open family_id protocol_id sock_type init_result ;;
  if negb opened
  then destructor [] ;; ret None
  else sock <- this ;; ret (Some sock).

End Creation.

(** ** Guest memory in a trace *)

(** The bytes a trace copies to the guest buffer at [dest], in order. *)
Fixpoint copied (dest : ptr) (tr : list event) : list byte :=
  match tr with
  | [] => []
  | Memcpy d src :: tr' =>
      if d =? dest then src ++ copied dest tr' else copied dest tr'
  | _ :: tr' => copied dest tr'
  end.

(** Whether an event writes to guest memory. *)
Definition writes_guest_memory (e : event) : bool :=
  match e with
  | Store32 _ _ | Memcpy _ _ => true
  | _ => false
  end.

(** The accumulator of a session, empty when there is none yet. *)
Definition accumulated (o : inet_socket) : list byte :=
  match stream_data_buffer_ o with Some q => q | None => [] end.

(** The session of a run that returned. *)
Definition session_of {A : Type} (r : result (A * state))
    : option inet_socket :=
  match r with
  | Ok (_, st) => Some (self st)
  | Fault _ => None
  end.


(** ** Several deliveries in a row *)

Section Sequences.
Context {K : Constants}.

(** The stream handler run on each chunk of [chunks] in turn, every
    chunk delivered whole. *)
Fixpoint deliveries (chunks : list (list byte)) : M (list bool) :=
  match chunks with
  | [] => ret []
  | chunk :: later =>
      done <- handle_tcp_delivery (Z.of_nat (length chunk)) chunk ;;
      rest <- deliveries later ;;
      ret (done :: rest)
  end.

End Sequences.

(** ** Hosts and identifiers for the concrete runs *)

(** A host whose name queries succeed for a datagram handle, with the
    address 10.0.0.1 port 80 in network order, and fail for a stream
    handle; the guest address is the one of [peer_10_0_0_1_80]. *)
Definition answering_host : NameHost := {|
  uv_udp_getsockname := fun _ => (0, sockaddr_in 20480 [10; 0; 0; 1]);
  uv_tcp_getsockname := fun _ => (-107, sockaddr_af 0);
  uv_udp_getpeername := fun _ => (0, sockaddr_in 20480 [10; 0; 0; 1]);
  uv_tcp_getpeername := fun _ => (-107, sockaddr_af 0);
  host_sockaddr_to_guest_saddress := fun _ => (peer_10_0_0_1_80, 8)
|}.

(** Some distinct option identifiers and an entry size; no theorem
    depends on which. *)
Definition some_option_ids : OptionIds := {|
  INET_INTERFACE_CONTROL_OPT_FAMILY := 513;
  INET_NEXT_INTERFACE_OPT := 258;
  INET_ENUM_INTERFACES_OPT := 529;
  sizeof_inet_interface_info := 600
|}.

(** A datagram session that still carries the filter of an earlier
    receive. *)
Definition stale_filter_session : inet_socket :=
  set_listen_addr_ peer_10_0_0_1_80 datagram_session.

(** A stream session with a receive of ten bytes pending for request 7,
    seven bytes already in the accumulator. *)
Definition waiting_session : inet_socket :=
  set_stream_data_buffer_ (Some [1; 2; 3; 4; 5; 6; 7])
    (set_recv_done_info_ (Some 7)
       (set_recv_size_ 10
          (set_read_dest_ 1000
             (set_bytes_read_ (Some 2000) stream_session)))).

(** The same with nothing in the accumulator yet. *)
Definition armed_session : inet_socket :=
  set_recv_done_info_ (Some 7)
    (set_recv_size_ 10
       (set_read_dest_ 1000 (set_bytes_read_ (Some 2000) stream_session))).

(** A session with a snapshot of three interfaces, the cursor at the
    second. *)
Definition enumerating_session : inet_socket :=
  set_opaque_interface_info_current_ [22; 23]
    (set_opaque_interface_info_ (Some (ifaddrs [21; 22; 23])) unopened).

(** ** What a method can emit *)

(** [emits_only P c]: whenever [c] returns, it has appended to the trace
    only events that satisfy [P]. *)
Definition emits_only {A : Type} (P : event -> Prop) (c : M A) : Prop :=
  forall st,
    match c st with
    | Ok (_, st') => exists new, trace st' = trace st ++ new /\ Forall P new
    | Fault _ => True
    end.

Lemma emits_only_ret {A : Type} (P : event -> Prop) (a : A) :
  emits_only P (ret a).
Proof.
  intros st. exists []. rewrite app_nil_r. split; [reflexivity|constructor].
Qed.

Lemma emits_only_this (P : event -> Prop) : emits_only P this.
Proof.
  intros st. exists []. rewrite app_nil_r. split; [reflexivity|constructor].
Qed.

Lemma emits_only_assign (P : event -> Prop)
    (f : inet_socket -> inet_socket) :
  emits_only P (assign f).
Proof.
  intros st. exists []. cbn. rewrite app_nil_r.
  split; [reflexivity|constructor].
Qed.

Lemma emits_only_crash {A : Type} (P : event -> Prop) (f : fault) :
  emits_only P (@crash A f).
Proof. intros st. exact I. Qed.

Lemma emits_only_emit (P : event -> Prop) (e : event) :
  P e -> emits_only P (emit e).
Proof.
  intros He st. exists [e]. split; [reflexivity|].
  constructor; [exact He|constructor].
Qed.

Lemma emits_only_and_then {A B : Type} (P : event -> Prop) (c : M A)
    (k : A -> M B) :
  emits_only P c -> (forall a, emits_only P (k a)) ->
  emits_only P (and_then c k).
Proof.
  intros Hc Hk st. unfold and_then. specialize (Hc st).
  destruct (c st) as [[a st1]|f]; [|exact I].
  destruct Hc as (new1 & Htr1 & Hall1).
  specialize (Hk a st1).
  destruct (k a st1) as [[b st2]|f]; [|exact I].
  destruct Hk as (new2 & Htr2 & Hall2).
  exists (new1 ++ new2). split.
  - rewrite Htr2, Htr1, app_assoc. reflexivity.
  - apply Forall_app. split; assumption.
Qed.

Lemma emits_only_when (P : event -> Prop) (b : bool) (c : M unit) :
  emits_only P c -> emits_only P (when b c).
Proof.
  intros Hc. destruct b; [exact Hc|apply emits_only_ret].
Qed.

Lemma emits_only_deref {A : Type} (P : event -> Prop) (p : option A) :
  emits_only P (deref p).
Proof.
  destruct p; [apply emits_only_ret|apply emits_only_crash].
Qed.

Lemma emits_only_complete (P : event -> Prop) (info : notify_info)
    (code : epoc_error) :
  (forall r, P (Complete r code)) -> emits_only P (complete info code).
Proof.
  intros HP. destruct info; [apply emits_only_emit, HP|apply emits_only_ret].
Qed.

Lemma emits_only_complete_member (P : event -> Prop)
    (get : inet_socket -> notify_info)
    (set : notify_info -> inet_socket -> inet_socket) (code : epoc_error) :
  (forall r, P (Complete r code)) ->
  emits_only P (complete_member get set code).
Proof.
  intros HP. unfold complete_member.
  apply emits_only_and_then; [apply emits_only_this|intros o].
  apply emits_only_and_then; [apply emits_only_complete, HP|intros _].
  apply emits_only_assign.
Qed.

(** The events of a run from the empty trace all satisfy [P]. *)
Lemma emits_only_run {A : Type} (P : event -> Prop) (c : M A)
    (o : inet_socket) :
  emits_only P c -> Forall P (events_of (run c o)).
Proof.
  intros Hc. unfold run, events_of. specialize (Hc (mk_state o [])).
  destruct (c (mk_state o [])) as [[a st]|f]; [|constructor].
  destruct Hc as (new & Htr & Hall). rewrite Htr. exact Hall.
Qed.

(** Walks the structure of a method, leaving one goal for each event it
    can emit. *)
Ltac walk_method :=
  repeat first
    [ apply emits_only_ret
    | apply emits_only_this
    | apply emits_only_assign
    | apply emits_only_crash
    | apply emits_only_deref
    | apply emits_only_when
    | apply emits_only_emit
    | apply emits_only_complete; intros ?
    | apply emits_only_complete_member; intros ?
    | apply emits_only_and_then; [|intros ?]
    | match goal with
      | |- emits_only _ (if ?b then _ else _) => destruct b
      | |- emits_only _ (match ?x with _ => _ end) => destruct x
      end ].

(** * Properties *)

(** Unfolding of the monad's combinators, down to the session object and
    the trace. *)
Ltac run_method :=
  cbv [run and_then this assign emit ret when complete complete_member
       crash deref lock unlock self trace].

(** Reading a member after assignments to members. *)
Ltac members :=
  cbn [opaque_handle_ protocol_ opaque_connect_ opaque_send_info_
       opaque_write_info_ connect_done_info_ send_done_info_ recv_done_info_
       bytes_written_ bytes_read_ read_dest_ recv_size_ take_available_only_
       receive_done_cb_ listen_addr_ stream_data_buffer_ temp_buffer_
       opaque_interface_info_ opaque_interface_info_current_
       set_opaque_handle_ set_protocol_ set_opaque_connect_
       set_opaque_send_info_ set_opaque_write_info_ set_connect_done_info_
       set_send_done_info_ set_recv_done_info_ set_bytes_written_
       set_bytes_read_ set_read_dest_ set_recv_size_ set_take_available_only_
       set_receive_done_cb_ set_listen_addr_ set_stream_data_buffer_
       set_temp_buffer_ set_opaque_interface_info_
       set_opaque_interface_info_current_].

(** The same for a session given by its members: the method is run down
    to its branches on them. *)
Ltac run_on_members :=
  cbv [run and_then this assign emit ret when complete complete_member
       crash deref lock unlock self trace empty non_null negb
       opaque_handle_ protocol_ opaque_connect_ opaque_send_info_
       opaque_write_info_ connect_done_info_ send_done_info_ recv_done_info_
       bytes_written_ bytes_read_ read_dest_ recv_size_ take_available_only_
       receive_done_cb_ listen_addr_ stream_data_buffer_ temp_buffer_
       opaque_interface_info_ opaque_interface_info_current_
       set_opaque_handle_ set_protocol_ set_opaque_connect_
       set_opaque_send_info_ set_opaque_write_info_ set_connect_done_info_
       set_send_done_info_ set_recv_done_info_ set_bytes_written_
       set_bytes_read_ set_read_dest_ set_recv_size_ set_take_available_only_
       set_receive_done_cb_ set_listen_addr_ set_stream_data_buffer_
       set_temp_buffer_ set_opaque_interface_info_
       set_opaque_interface_info_current_].

Ltac members_everywhere :=
  cbn [opaque_handle_ protocol_ opaque_connect_ opaque_send_info_
       opaque_write_info_ connect_done_info_ send_done_info_ recv_done_info_
       bytes_written_ bytes_read_ read_dest_ recv_size_ take_available_only_
       receive_done_cb_ listen_addr_ stream_data_buffer_ temp_buffer_
       opaque_interface_info_ opaque_interface_info_current_
       set_opaque_handle_ set_protocol_ set_opaque_connect_
       set_opaque_send_info_ set_opaque_write_info_ set_connect_done_info_
       set_send_done_info_ set_recv_done_info_ set_bytes_written_
       set_bytes_read_ set_read_dest_ set_recv_size_ set_take_available_only_
       set_receive_done_cb_ set_listen_addr_ set_stream_data_buffer_
       set_temp_buffer_ set_opaque_interface_info_
       set_opaque_interface_info_current_] in *.

Section Properties.
Context {K : Constants}.

(** ** Before [open]: [NotReady] *)

(** [connect] on a session without a native handle completes the
    caller's notification with [error_not_ready]; nothing is posted and
    the session is as it was. *)
Lemma connect_before_open (o : inet_socket) (addr : saddress) (r : request) :
  opaque_handle_ o = None ->
  run (connect addr (Some r)) o
  = Ok (tt, mk_state o [Complete r error_not_ready]).
Proof.
  intros Hnull. unfold connect. run_method. rewrite Hnull. reflexivity.
Qed.

(** [send] has no such guard.  On a session without a native handle and
    with no send pending it takes the notification as the pending send;
    whatever it does next, [error_not_ready] is not among its events. *)
Lemma send_before_open (o : inet_socket) (data : ptr) (data_size : Z)
    (sent_size : option ptr) (addr_ptr : option saddress) (flags : Z)
    (r r' : request) :
  opaque_handle_ o = None ->
  send_done_info_ o = None ->
  ~ In (Complete r' error_not_ready)
       (events_of (run (send data data_size sent_size addr_ptr flags (Some r))
                      o)).
Proof.
  intros Hnull Hidle. unfold send. run_method. rewrite Hidle. simpl.
  destruct sent_size as [p|]; simpl;
    destruct (protocol_ o =? INET_UDP_PROTOCOL_ID); simpl;
    destruct (opaque_send_info_ o); destruct (opaque_write_info_ o);
    destruct (opaque_connect_ o); simpl;
    intuition discriminate.
Qed.

(** A stream-side [send] or [receive] on a session that never connected
    reads through the null [opaque_connect_]. *)
Lemma send_without_connect_record (o : inet_socket) (data : ptr)
    (data_size : Z) (sent_size : option ptr) (addr_ptr : option saddress)
    (flags : Z) (info : notify_info) :
  send_done_info_ o = None ->
  protocol_ o <> INET_UDP_PROTOCOL_ID ->
  opaque_connect_ o = None ->
  run (send data data_size sent_size addr_ptr flags info) o
  = Fault null_dereference.
Proof.
  intros Hidle Hproto Hconn. unfold send. run_method. rewrite Hidle. simpl.
  apply Z.eqb_neq in Hproto. rewrite Hproto, Hconn.
  destruct sent_size; destruct (opaque_write_info_ o); reflexivity.
Qed.

Lemma receive_without_connect_record (o : inet_socket) (data : ptr)
    (data_size : Z) (recv_size : option ptr) (addr_ptr : option saddress)
    (flags : Z) (info : notify_info) (callback : option Z) :
  recv_done_info_ o = None ->
  protocol_ o <> INET_UDP_PROTOCOL_ID ->
  opaque_connect_ o = None ->
  stream_data_buffer_ o = None ->
  run (receive data data_size recv_size addr_ptr flags info callback) o
  = Fault null_dereference.
Proof.
  intros Hidle Hproto Hconn Hbuf.
  apply Z.eqb_neq in Hproto.
  destruct o; members_everywhere; subst.
  unfold receive. run_on_members.
  destruct (Z.land flags SOCKET_FLAG_DONT_WAIT_FULL =? 0);
    rewrite Hproto; reflexivity.
Qed.

(** [receive] has no such guard either: [error_not_ready] is not among
    the events of any of its runs. *)
Lemma receive_never_not_ready (data : ptr) (data_size : Z)
    (recv_size : option ptr) (addr_ptr : option saddress) (flags : Z)
    (info : notify_info) (callback : option Z) (r' : request) :
  emits_only (fun e => e <> Complete r' error_not_ready)
    (receive data data_size recv_size addr_ptr flags info callback).
Proof.
  unfold receive, lock, unlock. walk_method; discriminate.
Qed.

Lemma receive_before_open (o : inet_socket) (data : ptr) (data_size : Z)
    (recv_size : option ptr) (addr_ptr : option saddress) (flags : Z)
    (r r' : request) (callback : option Z) :
  ~ In (Complete r' error_not_ready)
       (events_of
          (run (receive data data_size recv_size addr_ptr flags (Some r)
                  callback) o)).
Proof.
  intros Hin.
  pose proof (emits_only_run _ _ o
                (receive_never_not_ready data data_size recv_size addr_ptr
                   flags (Some r) callback r')) as Hall.
  rewrite Forall_forall in Hall. exact (Hall _ Hin eq_refl).
Qed.

(** C1, at the failing inputs.  On a session without a native handle,
    with no send and no receive pending, neither [send] nor [receive]
    completes the supplied notification with [error_not_ready]: there is
    no guard on the handle in either of them.  On a session that has
    never connected they run on into the stream branch and read through
    the null connect record. *)
Theorem send_receive_before_open (o : inet_socket) (data : ptr)
    (data_size : Z) (count : option ptr) (addr_ptr : option saddress)
    (flags : Z) (r : request) (callback : option Z) :
  opaque_handle_ o = None ->
  send_done_info_ o = None ->
  recv_done_info_ o = None ->
  ~ In (Complete r error_not_ready)
       (events_of (run (send data data_size count addr_ptr flags (Some r)) o))
  /\ ~ In (Complete r error_not_ready)
          (events_of
             (run (receive data data_size count addr_ptr flags (Some r)
                     callback) o))
  /\ (protocol_ o <> INET_UDP_PROTOCOL_ID ->
      opaque_connect_ o = None ->
      stream_data_buffer_ o = None ->
      run (send data data_size count addr_ptr flags (Some r)) o
      = Fault null_dereference
      /\ run (receive data data_size count addr_ptr flags (Some r) callback) o
         = Fault null_dereference).
Proof.
  intros Hnull Hsend Hrecv. split; [|split].
  - apply send_before_open; assumption.
  - apply receive_before_open.
  - intros Hproto Hconn Hbuf. split.
    + apply send_without_connect_record; assumption.
    + apply receive_without_connect_record; assumption.
Qed.

(** ** [close_down] and [open] *)

Lemma legal_pair_checked (sock_type : socket_type) (protocol_id : Z) :
  legal_pair sock_type protocol_id ->
  match sock_type with
  | socket_type_datagram => protocol_id =? INET_UDP_PROTOCOL_ID
  | socket_type_stream => protocol_id =? INET_TCP_PROTOCOL_ID
  | socket_type_other _ => false
  end = true.
Proof.
  intros [[-> ->]|[-> ->]]; apply Z.eqb_refl.
Qed.

(** [open] on a session without a native handle, for a legal pair, when
    the native initialisation succeeds: the handle exists afterwards and
    the protocol is recorded. *)
Lemma open_succeeds (o : inet_socket) (family_id protocol_id : Z)
    (sock_type : socket_type) (init_result : Z) :
  legal_pair sock_type protocol_id ->
  opaque_handle_ o = None ->
  0 <= init_result ->
  exists o' tr,
    run (open family_id protocol_id sock_type init_result) o
    = Ok (true, mk_state o' tr)
    /\ opaque_handle_ o' <> None
    /\ protocol_ o' = protocol_id.
Proof.
  intros Hlegal Hnull Hres. unfold open. run_method.
  rewrite (legal_pair_checked _ _ Hlegal). simpl. rewrite Hnull. simpl.
  apply Z.ltb_ge in Hres.
  destruct (protocol_id =? INET_TCP_PROTOCOL_ID); simpl; rewrite Hres;
    eexists; eexists; (split; [reflexivity|]); simpl; split;
    (discriminate || reflexivity).
Qed.

Lemma called_back_twice (c s c' s' : notify_info) (w w' : option ptr)
    (o : inet_socket) :
  called_back c' s' w' (called_back c s w o) = called_back c' s' w' o.
Proof. destruct o; reflexivity. Qed.

Lemma connect_callback_effect (status : Z) (o : inet_socket)
    (tr : list event) :
  exists new,
    run_request_callback (connect_cb status) (mk_state o tr)
    = Ok (tt, mk_state (called_back None (send_done_info_ o)
                          (bytes_written_ o) o) (tr ++ new))
    /\ callbacks_report o [connect_cb status] None (send_done_info_ o) new.
Proof.
  destruct o as [h p oc os ow c s r bw br rd rs ta cb la q tb ii ic].
  unfold callbacks_report, run_request_callback, complete_connect_done_info,
    handle_connect_done_error_code, called_back.
  destruct c as [rc|]; run_on_members.
  - assert (Hone : forall code, code <> error_cancel ->
      exists new,
        Ok (tt, mk_state
                  (mk_inet_socket h p oc os ow None s r bw br rd rs ta cb la
                     q tb ii ic) (tr ++ [Complete rc code]))
        = Ok (tt, mk_state
                    (mk_inet_socket h p oc os ow None s r bw br rd rs ta cb
                       la q tb ii ic) (tr ++ new))
        /\ None = (if existsb is_connect_cb [connect_cb status]
                   then None else Some rc)
        /\ s = (if existsb is_send_cb [connect_cb status] then None else s)
        /\ posted new = []
        /\ (forall r0, times_completed r0 error_cancel new = 0%nat)
        /\ (forall r0 code0, In (Complete r0 code0) new ->
              Some rc = Some r0 \/ s = Some r0)
        /\ (length (completions new) + pending [None; s]
            = pending [Some rc; s])%nat).
    { intros code Hcode. exists [Complete rc code].
      repeat split.
      - unfold times_completed. intros r0. cbn.
        destruct code; try contradiction; cbn;
          rewrite andb_false_r; reflexivity.
      - intros r0 code0 [Hin|[]]. left. inversion Hin. reflexivity. }
    repeat match goal with
           | |- context [if ?b then _ else _] => destruct b
           end; apply Hone; discriminate.
  - exists []. rewrite app_nil_r. repeat split.
    intros r0 code0 [].
Qed.

Lemma send_callback_effect (status : Z) (o : inet_socket)
    (tr : list event) :
  exists new,
    run_request_callback (send_cb status) (mk_state o tr)
    = Ok (tt, mk_state (called_back (connect_done_info_ o) None
                          (if empty (send_done_info_ o)
                           then bytes_written_ o else None) o) (tr ++ new))
    /\ callbacks_report o [send_cb status] (connect_done_info_ o) None new.
Proof.
  destruct o as [h p oc os ow c s r bw br rd rs ta cb la q tb ii ic].
  unfold callbacks_report, run_request_callback, complete_send_done_info,
    called_back.
  destruct s as [rq|]; run_on_members.
  - destruct (status =? 0); cbn [negb];
      (eexists [Lock; Complete rq _; Unlock]);
      rewrite <- !app_assoc; (split; [reflexivity|]); repeat split;
      try (intros r0; unfold times_completed; cbn;
           rewrite andb_false_r; reflexivity);
      try (intros r0 code0 [Hin|[Hin|[Hin|[]]]]; try discriminate;
           right; inversion Hin; reflexivity);
      destruct c; reflexivity.
  - exists []. rewrite app_nil_r. repeat split.
    intros r0 code0 [].
Qed.

Lemma called_back_slots (c s : notify_info) (w : option ptr)
    (o : inet_socket) :
  connect_done_info_ (called_back c s w o) = c
  /\ send_done_info_ (called_back c s w o) = s.
Proof. destruct o; split; reflexivity. Qed.

Lemma callbacks_report_step (o : inet_socket) (cb : request_callback)
    (later : list request_callback) (c1 s1 c2 s2 : notify_info)
    (w1 : option ptr) (new1 new2 : list event) :
  callbacks_report o [cb] c1 s1 new1 ->
  callbacks_report (called_back c1 s1 w1 o) later c2 s2 new2 ->
  callbacks_report o (cb :: later) c2 s2 (new1 ++ new2).
Proof.
  unfold callbacks_report.
  destruct (called_back_slots c1 s1 w1 o) as [-> ->].
  intros (Hc1 & Hs1 & Hp1 & Ht1 & Hin1 & Hn1) (Hc2 & Hs2 & Hp2 & Ht2 & Hin2 & Hn2).
  cbn [existsb] in *. rewrite orb_false_r in Hc1, Hs1.
  repeat split.
  - rewrite Hc2, Hc1.
    destruct (is_connect_cb cb), (existsb is_connect_cb later); reflexivity.
  - rewrite Hs2, Hs1.
    destruct (is_send_cb cb), (existsb is_send_cb later); reflexivity.
  - unfold posted in *. rewrite filter_app, Hp1, Hp2. reflexivity.
  - intros r. unfold times_completed in *.
    rewrite filter_app, length_app, Ht1, Ht2. reflexivity.
  - intros r code Hin. apply in_app_or in Hin. destruct Hin as [Hin|Hin].
    + exact (Hin1 r code Hin).
    + destruct (Hin2 r code Hin) as [H|H].
      * rewrite Hc1 in H. destruct (is_connect_cb cb); [discriminate|].
        left. exact H.
      * rewrite Hs1 in H. destruct (is_send_cb cb); [discriminate|].
        right. exact H.
  - unfold completions in *. rewrite filter_app, length_app. lia.
Qed.

(** The callbacks of the requests in flight assign only the two
    notification slots and [bytes_written_]; they post nothing, complete
    nothing with [error_cancel], and complete each of the pending connect
    and send notifications at most once. *)
Lemma run_request_callbacks_effect (cbs : list request_callback) :
  forall (o : inet_socket) (tr : list event),
  exists c s w new,
    run_request_callbacks cbs (mk_state o tr)
    = Ok (tt, mk_state (called_back c s w o) (tr ++ new))
    /\ callbacks_report o cbs c s new.
Proof.
  induction cbs as [|cb later IH]; intros o tr.
  - exists (connect_done_info_ o), (send_done_info_ o), (bytes_written_ o), [].
    rewrite app_nil_r. split; [destruct o; reflexivity|].
    unfold callbacks_report. repeat split. intros r code [].
  - assert (Hfirst : exists c1 s1 w1 new1,
      run_request_callback cb (mk_state o tr)
      = Ok (tt, mk_state (called_back c1 s1 w1 o) (tr ++ new1))
      /\ callbacks_report o [cb] c1 s1 new1).
    { destruct cb as [status|status].
      - destruct (connect_callback_effect status o tr) as (new & Hrun & Hrep).
        eexists _, _, _, new. split; [exact Hrun|exact Hrep].
      - destruct (send_callback_effect status o tr) as (new & Hrun & Hrep).
        eexists _, _, _, new. split; [exact Hrun|exact Hrep]. }
    destruct Hfirst as (c1 & s1 & w1 & new1 & Hrun1 & Hrep1).
    destruct (IH (called_back c1 s1 w1 o) (tr ++ new1))
      as (c2 & s2 & w2 & new2 & Hrun2 & Hrep2).
    exists c2, s2, w2, (new1 ++ new2). split.
    + cbn [run_request_callbacks]. unfold and_then at 1.
      rewrite Hrun1, Hrun2, called_back_twice, app_assoc. reflexivity.
    + exact (callbacks_report_step _ _ _ _ _ _ _ _ _ _ Hrep1 Hrep2).
Qed.

Lemma close_down_effect (o : inet_socket)
    (in_flight : list request_callback) :
  exists c s w new,
    run (close_down in_flight) o
    = Ok (tt,
          if non_null (opaque_handle_ o)
          then mk_state
                 (closed (set_protocol_ 0
                    (set_opaque_handle_ None (called_back c s w o))))
                 (Post task_close :: new)
          else mk_state (closed o) [])
    /\ callbacks_report o in_flight c s new.
Proof.
  destruct (run_request_callbacks_effect in_flight o ([] ++ [Post task_close]))
    as (c & s & w & new & Hrun & Hrep).
  exists c, s, w, new. split; [|exact Hrep].
  destruct o as [h p oc os ow ? ? ? ? ? ? ? ? ? ? ? ? ? ?].
  unfold close_down, closed.
  destruct h as [h|].
  - run_on_members. rewrite Hrun.
    unfold called_back. run_on_members.
    destruct oc, os, ow; reflexivity.
  - run_on_members. destruct oc, os, ow; reflexivity.
Qed.

(** With no request in flight, [close_down] emits at most the posted
    close and leaves the notification slots alone. *)
Lemma close_down_quiet (o : inet_socket) :
  run (close_down []) o
  = Ok (tt,
        if non_null (opaque_handle_ o)
        then mk_state (closed (set_protocol_ 0 (set_opaque_handle_ None o)))
               [Post task_close]
        else mk_state (closed o) []).
Proof.
  destruct o as [h p oc os ow ? ? ? ? ? ? ? ? ? ? ? ? ? ?].
  unfold close_down, closed, run_request_callbacks.
  destruct h, oc, os, ow; reflexivity.
Qed.

(** On a session without a native handle and without request records
    [close_down] does nothing. *)
Lemma close_down_again (o : inet_socket) (in_flight : list request_callback) :
  opaque_handle_ o = None ->
  opaque_connect_ o = None ->
  opaque_send_info_ o = None ->
  opaque_write_info_ o = None ->
  run (close_down in_flight) o = Ok (tt, mk_state o []).
Proof.
  destruct o as [h p oc os ow ? ? ? ? ? ? ? ? ? ? ? ? ? ?].
  members_everywhere. intros -> -> -> ->. reflexivity.
Qed.

(** A connect and a send request that libuv calls back with a status
    outside the [switch] (as the status of a cancelled request is) are
    completed with [error_general]. *)
Lemma close_down_with_cancelled_requests (o : inet_socket) (h : uv_handle)
    (rc rs : request) (cstatus sstatus : Z) :
  opaque_handle_ o = Some h ->
  connect_done_info_ o = Some rc ->
  send_done_info_ o = Some rs ->
  cstatus <> 0 -> ~ In cstatus switch_labels -> sstatus <> 0 ->
  events_of (run (close_down [connect_cb cstatus; send_cb sstatus]) o)
  = [Post task_close; Complete rc error_general;
     Lock; Complete rs error_general; Unlock].
Proof.
  destruct o as [h0 p oc os ow c s ? ? ? ? ? ? ? ? ? ? ? ?].
  members_everywhere. intros -> -> -> Hc Hl Hs.
  unfold switch_labels in Hl. cbn [In] in Hl.
  unfold close_down, run_request_callbacks, run_request_callback,
    complete_connect_done_info, handle_connect_done_error_code,
    complete_send_done_info.
  run_on_members.
  destruct (Z.eqb_spec sstatus 0) as [E|_]; [contradiction|].
  destruct (Z.eqb_spec cstatus 0) as [E|_]; [contradiction|].
  repeat match goal with
         | |- context [?a =? ?b] =>
             destruct (Z.eqb_spec a b) as [E|_];
             [exfalso; apply Hl; rewrite E; tauto|]
         end.
  destruct oc, os, ow; reflexivity.
Qed.

(** C2, as the code has it.  [close_down] never completes a notification
    with [error_cancel].  With a native handle it posts the close and
    waits for it; while it waits the native layer calls back the connect
    and send requests still in flight.  A pending connect or send
    notification is completed, and its slot emptied, exactly when a
    callback of its kind is made, and it is completed once; nothing else
    is completed.  When the connect and the send request are called
    back as cancelled, with a status that is not zero and, for the
    connect, not a label of the [switch], both are completed with
    [error_general].  The receive notification is never completed and
    stays pending.  With no request in flight, or without a native
    handle, the posted close is the only event, if there is one, and all
    three notifications stay pending.  Afterwards the native handle and
    the request records are gone; [close_down] on the session it leaves
    does nothing; and a following [open] with a legal pair whose native
    initialisation succeeds returns true with a native handle in
    place. *)
Theorem close_down_never_cancels (o : inet_socket)
    (in_flight : list request_callback)
    (family_id protocol_id : Z) (sock_type : socket_type) (init_result : Z) :
  legal_pair sock_type protocol_id ->
  0 <= init_result ->
  exists o' tr,
    run (close_down in_flight) o = Ok (tt, mk_state o' tr)
    /\ posted tr
       = (if non_null (opaque_handle_ o) then [Post task_close] else [])
    /\ (forall r, times_completed r error_cancel tr = 0%nat)
    /\ recv_done_info_ o' = recv_done_info_ o
    /\ connect_done_info_ o'
       = (if non_null (opaque_handle_ o) && existsb is_connect_cb in_flight
          then None else connect_done_info_ o)
    /\ send_done_info_ o'
       = (if non_null (opaque_handle_ o) && existsb is_send_cb in_flight
          then None else send_done_info_ o)
    /\ (forall r code, In (Complete r code) tr ->
          connect_done_info_ o = Some r \/ send_done_info_ o = Some r)
    /\ (length (completions tr)
        + pending [connect_done_info_ o'; send_done_info_ o']
        = pending [connect_done_info_ o; send_done_info_ o])%nat
    /\ (in_flight = [] \/ opaque_handle_ o = None -> tr = posted tr)
    /\ (forall rc rs cstatus sstatus,
          opaque_handle_ o <> None ->
          connect_done_info_ o = Some rc ->
          send_done_info_ o = Some rs ->
          in_flight = [connect_cb cstatus; send_cb sstatus] ->
          cstatus <> 0 -> ~ In cstatus switch_labels -> sstatus <> 0 ->
          tr = [Post task_close; Complete rc error_general;
                Lock; Complete rs error_general; Unlock])
    /\ opaque_handle_ o' = None
    /\ opaque_connect_ o' = None
    /\ opaque_send_info_ o' = None
    /\ opaque_write_info_ o' = None
    /\ (forall again, run (close_down again) o' = Ok (tt, mk_state o' []))
    /\ exists o'' tr',
         run (open family_id protocol_id sock_type init_result) o'
         = Ok (true, mk_state o'' tr')
         /\ opaque_handle_ o'' <> None.
Proof.
  intros Hlegal Hres.
  destruct (close_down_effect o in_flight)
    as (c & s & w & new & Hrun & Hc & Hs & Hposted & Hcancel & Hin & Hcount).
  pose proof (close_down_quiet o) as Hquiet.
  assert (Hgeneral : forall h rc rs cstatus sstatus,
    opaque_handle_ o = Some h ->
    connect_done_info_ o = Some rc ->
    send_done_info_ o = Some rs ->
    cstatus <> 0 -> ~ In cstatus switch_labels -> sstatus <> 0 ->
    events_of (run (close_down [connect_cb cstatus; send_cb sstatus]) o)
    = [Post task_close; Complete rc error_general;
       Lock; Complete rs error_general; Unlock])
    by (intros; eapply close_down_with_cancelled_requests; eassumption).
  destruct o as [h p oc os ow co so ro ? ? ? ? ? ? ? ? ? ? ?].
  members_everywhere. destruct h as [h|]; cbn [non_null andb] in *.
  - eexists; eexists. split; [exact Hrun|].
    assert (Hclosed : forall x,
      opaque_handle_ (closed (set_protocol_ 0 (set_opaque_handle_ None x)))
      = None /\
      opaque_connect_ (closed (set_protocol_ 0 (set_opaque_handle_ None x)))
      = None /\
      opaque_send_info_ (closed (set_protocol_ 0 (set_opaque_handle_ None x)))
      = None /\
      opaque_write_info_ (closed (set_protocol_ 0 (set_opaque_handle_ None x)))
      = None) by (intros x; destruct x; repeat split).
    destruct (Hclosed (called_back c s w
      (mk_inet_socket (Some h) p oc os ow co so ro bytes_written_0
         bytes_read_0 read_dest_0 recv_size_0 take_available_only_0
         receive_done_cb_0 listen_addr_0 stream_data_buffer_0 temp_buffer_0
         opaque_interface_info_0 opaque_interface_info_current_0)))
      as (Hh & Hoc & Hos & How).
    split; [cbn; fold (posted new); rewrite Hposted; reflexivity|].
    split; [exact Hcancel|].
    split; [reflexivity|].
    split; [exact Hc|].
    split; [exact Hs|].
    split; [intros r code [Hhead|Htail];
            [discriminate|exact (Hin r code Htail)]|].
    split; [exact Hcount|].
    split.
    { intros [Hnone|Hnone]; [|discriminate]. subst in_flight.
      rewrite Hquiet in Hrun. inversion Hrun. reflexivity. }
    split.
    { intros rc rs cstatus sstatus _ Hrc Hrs Hfl Hc0 Hcl Hs0.
      subst in_flight.
      rewrite <- (Hgeneral h rc rs cstatus sstatus eq_refl Hrc Hrs Hc0 Hcl Hs0).
      rewrite Hrun. reflexivity. }
    split; [exact Hh|]. split; [exact Hoc|]. split; [exact Hos|].
    split; [exact How|].
    split; [intros again; apply close_down_again; assumption|].
    destruct (open_succeeds _ family_id protocol_id sock_type init_result
                Hlegal Hh Hres) as (o'' & tr' & Hopen & Hh'' & _).
    exists o'', tr'. split; assumption.
  - eexists; eexists. split; [exact Hrun|].
    split; [reflexivity|]. split; [reflexivity|]. split; [reflexivity|].
    split; [reflexivity|]. split; [reflexivity|].
    split; [intros r code []|].
    split; [reflexivity|].
    split; [reflexivity|].
    split; [intros rc rs cstatus sstatus Hh; contradiction|].
    split; [reflexivity|]. split; [reflexivity|]. split; [reflexivity|].
    split; [reflexivity|].
    split; [intros again; apply close_down_again; reflexivity|].
    destruct (open_succeeds
                (closed (mk_inet_socket None p oc os ow co so ro
                   bytes_written_0 bytes_read_0 read_dest_0 recv_size_0
                   take_available_only_0 receive_done_cb_0 listen_addr_0
                   stream_data_buffer_0 temp_buffer_0 opaque_interface_info_0
                   opaque_interface_info_current_0))
                family_id protocol_id sock_type init_result
                Hlegal eq_refl Hres) as (o'' & tr' & Hopen & Hh'' & _).
    exists o'', tr'. split; assumption.
Qed.

(** C3, at the failing path.  When the native initialisation returns a
    negative result, [open] returns false with the native handle it had
    allocated still in place and the protocol untouched; every later
    [open] of the same session then returns false as well, whatever the
    native layer would answer, and does nothing. *)
Theorem open_failure_keeps_handle (o : inet_socket)
    (family_id protocol_id : Z) (sock_type : socket_type)
    (init_result retry_result : Z) :
  legal_pair sock_type protocol_id ->
  opaque_handle_ o = None ->
  init_result < 0 ->
  exists o' tr,
    run (open family_id protocol_id sock_type init_result) o
    = Ok (false, mk_state o' tr)
    /\ opaque_handle_ o' <> None
    /\ protocol_ o' = protocol_ o
    /\ run (open family_id protocol_id sock_type retry_result) o'
       = Ok (false, mk_state o' []).
Proof.
  intros Hlegal Hnull Hres. unfold open. run_method.
  rewrite (legal_pair_checked _ _ Hlegal). simpl. rewrite Hnull. simpl.
  apply Z.ltb_lt in Hres.
  destruct (protocol_id =? INET_TCP_PROTOCOL_ID); simpl; rewrite Hres;
    eexists; eexists; (split; [reflexivity|]); simpl;
    (split; [discriminate|]); split; reflexivity.
Qed.

(** ** A second operation of a kind: [InUse] *)

Lemma connect_while_pending (o : inet_socket) (addr : saddress)
    (r : request) :
  opaque_handle_ o <> None ->
  connect_done_info_ o <> None ->
  run (connect addr (Some r)) o = Ok (tt, mk_state o [Complete r error_in_use]).
Proof.
  intros Hopen Hbusy. unfold connect. run_method.
  destruct (opaque_handle_ o); [|congruence].
  destruct (connect_done_info_ o); [|congruence].
  reflexivity.
Qed.

Lemma send_while_pending (o : inet_socket) (data : ptr) (data_size : Z)
    (sent_size : option ptr) (addr_ptr : option saddress) (flags : Z)
    (r : request) :
  send_done_info_ o <> None ->
  run (send data data_size sent_size addr_ptr flags (Some r)) o
  = Ok (tt, mk_state o [Complete r error_in_use]).
Proof.
  intros Hbusy. unfold send. run_method.
  destruct (send_done_info_ o); [|congruence].
  reflexivity.
Qed.

Lemma receive_while_pending (o : inet_socket) (data : ptr) (data_size : Z)
    (recv_size : option ptr) (addr_ptr : option saddress) (flags : Z)
    (r : request) (callback : option Z) :
  recv_done_info_ o <> None ->
  run (receive data data_size recv_size addr_ptr flags (Some r) callback) o
  = Ok (tt, mk_state o [Complete r error_in_use]).
Proof.
  intros Hbusy. unfold receive. run_method.
  destruct (recv_done_info_ o); [|congruence].
  reflexivity.
Qed.

(** C6, as the code has it.  Starting a send, or a receive, while one of
    the same kind is pending completes the new notification with
    [error_in_use] and leaves the whole session as it was: the pending
    notification, the target buffer and every other member, with nothing
    posted.  The same holds for a connect on a session that has its
    native handle.  On a session without a native handle the earlier
    guard of [connect] answers first: the new notification is completed
    with [error_not_ready], whether or not a connect is pending, and the
    session is left as it was. *)
Theorem second_operation_in_use (o : inet_socket) (addr : saddress)
    (data : ptr) (data_size : Z) (count : option ptr)
    (addr_ptr : option saddress) (flags : Z) (r : request)
    (callback : option Z) :
  (opaque_handle_ o <> None ->
   connect_done_info_ o <> None ->
   run (connect addr (Some r)) o
   = Ok (tt, mk_state o [Complete r error_in_use]))
  /\ (send_done_info_ o <> None ->
      run (send data data_size count addr_ptr flags (Some r)) o
      = Ok (tt, mk_state o [Complete r error_in_use]))
  /\ (recv_done_info_ o <> None ->
      run (receive data data_size count addr_ptr flags (Some r) callback) o
      = Ok (tt, mk_state o [Complete r error_in_use]))
  /\ (opaque_handle_ o = None ->
      run (connect addr (Some r)) o
      = Ok (tt, mk_state o [Complete r error_not_ready])).
Proof.
  split; [|split; [|split]].
  - apply connect_while_pending.
  - apply send_while_pending.
  - apply receive_while_pending.
  - apply connect_before_open.
Qed.

(** ** [bind] *)

(** C7, as the code has it.  [bind] on a session without a native handle
    completes the notification with [error_not_ready].  Otherwise it
    calls the host bind itself, on the calling thread, posts nothing to
    the looper, and then completes the notification with [error_none]
    whatever the host bind returned. *)
Theorem bind_calls_host_directly (o : inet_socket) (addr : saddress)
    (r : request) (bind_result : Z) :
  (opaque_handle_ o = None ->
   run (bind addr (Some r) bind_result) o
   = Ok (tt, mk_state o [Complete r error_not_ready]))
  /\ (opaque_handle_ o <> None ->
      run (bind addr (Some r) bind_result) o
      = Ok (tt,
            mk_state o
              [Call (if protocol_ o =? INET_UDP_PROTOCOL_ID
                     then uv_udp_bind (GUEST_TO_BSD_ADDR addr)
                     else uv_tcp_bind (GUEST_TO_BSD_ADDR addr));
               Complete r error_none])
         /\ posted (events_of (run (bind addr (Some r) bind_result) o)) = []).
Proof.
  split.
  - intros Hnull. unfold bind. run_method. rewrite Hnull. reflexivity.
  - intros Hopen. unfold bind. run_method.
    destruct (opaque_handle_ o); [|congruence]. cbn [non_null negb].
    destruct (protocol_ o =? INET_UDP_PROTOCOL_ID); split; reflexivity.
Qed.

(** ** The result of a native connect *)

Lemma switch_labels_distinct :
  NoDup switch_labels ->
  UV_EACCES <> UV_EADDRINUSE /\ UV_EACCES <> UV_EADDRNOTAVAIL
  /\ UV_EACCES <> UV_EAFNOSUPPORT /\ UV_EACCES <> UV_ECONNREFUSED
  /\ UV_EACCES <> UV_ENOTSUP /\ UV_EACCES <> UV_ETIMEDOUT
  /\ UV_EADDRINUSE <> UV_EADDRNOTAVAIL /\ UV_EADDRINUSE <> UV_EAFNOSUPPORT
  /\ UV_EADDRINUSE <> UV_ECONNREFUSED /\ UV_EADDRINUSE <> UV_ENOTSUP
  /\ UV_EADDRINUSE <> UV_ETIMEDOUT
  /\ UV_EADDRNOTAVAIL <> UV_EAFNOSUPPORT /\ UV_EADDRNOTAVAIL <> UV_ECONNREFUSED
  /\ UV_EADDRNOTAVAIL <> UV_ENOTSUP /\ UV_EADDRNOTAVAIL <> UV_ETIMEDOUT
  /\ UV_EAFNOSUPPORT <> UV_ECONNREFUSED /\ UV_EAFNOSUPPORT <> UV_ENOTSUP
  /\ UV_EAFNOSUPPORT <> UV_ETIMEDOUT
  /\ UV_ECONNREFUSED <> UV_ENOTSUP /\ UV_ECONNREFUSED <> UV_ETIMEDOUT
  /\ UV_ENOTSUP <> UV_ETIMEDOUT.
Proof.
  unfold switch_labels. intros Hnd.
  repeat match goal with
         | H : NoDup (_ :: _) |- _ => inversion H; clear H; subst
         end.
  cbn [In] in *. intuition congruence.
Qed.

(** C8, as the code has it.  With a connect pending, a native completion
    empties the slot and completes the request exactly once, with
    [error_none] for the code 0 and otherwise with: access denied,
    [error_permission_denied]; address in use, [error_in_use], the code
    that a second connect is refused with; address not available,
    [error_argument]; family unsupported and operation unsupported,
    [error_not_supported]; connection refused, [error_server_busy];
    timed out, [error_timed_out]; any other code, [error_general]. *)
Theorem connect_error_mapping (o : inet_socket) (r : request)
    (error_code : Z) :
  connect_done_info_ o = Some r ->
  NoDup switch_labels ->
  ~ In 0 switch_labels ->
  exists code,
    run (handle_connect_done_error_code error_code) o
    = Ok (tt, mk_state (set_connect_done_info_ None o) [Complete r code])
    /\ (error_code = 0 -> code = error_none)
    /\ (error_code = UV_EACCES -> code = error_permission_denied)
    /\ (error_code = UV_EADDRINUSE -> code = error_in_use)
    /\ (error_code = UV_EADDRNOTAVAIL -> code = error_argument)
    /\ (error_code = UV_EAFNOSUPPORT -> code = error_not_supported)
    /\ (error_code = UV_ECONNREFUSED -> code = error_server_busy)
    /\ (error_code = UV_ENOTSUP -> code = error_not_supported)
    /\ (error_code = UV_ETIMEDOUT -> code = error_timed_out)
    /\ (error_code <> 0 -> ~ In error_code switch_labels ->
        code = error_general).
Proof.
  intros Hpending Hnd Hnz.
  destruct (switch_labels_distinct Hnd)
    as (D1 & D2 & D3 & D4 & D5 & D6 & D7 & D8 & D9 & D10 & D11 & D12 & D13
        & D14 & D15 & D16 & D17 & D18 & D19 & D20 & D21).
  assert (Hz : UV_EACCES <> 0 /\ UV_EADDRINUSE <> 0 /\ UV_EADDRNOTAVAIL <> 0
               /\ UV_EAFNOSUPPORT <> 0 /\ UV_ECONNREFUSED <> 0
               /\ UV_ENOTSUP <> 0 /\ UV_ETIMEDOUT <> 0).
  { unfold switch_labels in Hnz. cbn [In] in Hnz. clear - Hnz. tauto. }
  destruct Hz as (Z1 & Z2 & Z3 & Z4 & Z5 & Z6 & Z7). clear Hnz Hnd.
  unfold handle_connect_done_error_code. run_method.
  rewrite Hpending. cbn [empty].
  destruct (Z.eqb_spec error_code 0) as [E0|E0];
    [|destruct (Z.eqb_spec error_code UV_EACCES) as [E1|E1];
      [|destruct (Z.eqb_spec error_code UV_EADDRINUSE) as [E2|E2];
        [|destruct (Z.eqb_spec error_code UV_EADDRNOTAVAIL) as [E3|E3];
          [|destruct (Z.eqb_spec error_code UV_EAFNOSUPPORT) as [E4|E4];
            [|destruct (Z.eqb_spec error_code UV_ECONNREFUSED) as [E5|E5];
              [|destruct (Z.eqb_spec error_code UV_ENOTSUP) as [E6|E6];
                [|destruct (Z.eqb_spec error_code UV_ETIMEDOUT)
                    as [E7|E7]]]]]]]];
    rewrite ?Hpending; cbn [app];
    (eexists; split; [reflexivity|]);
    unfold switch_labels; cbn [In];
    repeat split; intros; try reflexivity; try congruence;
    exfalso;
    match goal with
    | H : ~ (_ \/ _) |- _ => apply H; clear H; subst; tauto
    end.
Qed.

(** ** Stream receive *)

(** C4, at the failing inputs.  A stream receive that waits for the full
    count, started with [q] already in the accumulator, compares the two
    sizes the other way round.  When the accumulator holds more than was
    asked for, the call does nothing at all: no event, the data stay in
    the accumulator and the receive stays pending with host delivery not
    armed.  When it holds less than was asked for (and is not empty), the
    call completes at once with the shorter content of the accumulator
    and does not arm host delivery either. *)
Theorem receive_compares_sizes_backwards (o : inet_socket) (q : ring_buffer)
    (data : ptr) (data_size : Z) (recv_size : option ptr)
    (addr_ptr : option saddress) (flags : Z) (r : request) :
  recv_done_info_ o = None ->
  protocol_ o <> INET_UDP_PROTOCOL_ID ->
  stream_data_buffer_ o = Some q ->
  Z.land flags SOCKET_FLAG_DONT_WAIT_FULL = 0 ->
  (0 <= data_size < rb_size q ->
   exists o',
     run (receive data data_size recv_size addr_ptr flags (Some r) None) o
     = Ok (tt, mk_state o' [])
     /\ recv_done_info_ o' = Some r
     /\ stream_data_buffer_ o' = Some q)
  /\ (0 < rb_size q < data_size ->
      exists o' tr,
        run (receive data data_size recv_size addr_ptr flags (Some r) None) o
        = Ok (tt, mk_state o' tr)
        /\ In (Memcpy data q) tr
        /\ completions tr = [Complete r error_none]
        /\ posted tr = []
        /\ recv_done_info_ o' = None).
Proof.
  intros Hidle Hproto Hbuf Hflag.
  apply Z.eqb_neq in Hproto.
  destruct o; members_everywhere; subst.
  split; intros Hsize.
  - unfold receive. run_on_members.
    rewrite Hflag. cbn [Z.eqb]. rewrite Hproto.
    assert (Hne : (rb_size q =? 0) = false) by (apply Z.eqb_neq; lia).
    rewrite Hne. cbn [orb].
    assert (Hle : (rb_size q <=? data_size) = false) by (apply Z.leb_gt; lia).
    rewrite Hle. eexists. split; [reflexivity|]. members. auto.
  - unfold receive. run_on_members.
    rewrite Hflag. cbn [Z.eqb]. rewrite Hproto.
    assert (Hne : (rb_size q =? 0) = false) by (apply Z.eqb_neq; lia).
    rewrite Hne. cbn [orb].
    assert (Hle : (rb_size q <=? data_size) = true) by (apply Z.leb_le; lia).
    rewrite Hle.
    assert (Hmin : Z.min data_size (rb_size q) = rb_size q) by lia.
    rewrite Hmin. unfold rb_pop, rb_size. rewrite Nat2Z.id.
    rewrite firstn_all.
    destruct recv_size as [p|]; eexists; eexists;
      (split; [reflexivity|]); members; cbn; auto 6.
Qed.

(** In take-available mode a stream receive started with [q], not empty,
    in the accumulator is satisfied at once with [min data_size (size q)]
    bytes, and host delivery is not armed. *)
Lemma receive_takes_what_is_buffered (o : inet_socket) (q : ring_buffer)
    (data : ptr) (data_size : Z) (addr_ptr : option saddress) (flags : Z)
    (r : request) :
  recv_done_info_ o = None ->
  protocol_ o <> INET_UDP_PROTOCOL_ID ->
  stream_data_buffer_ o = Some q ->
  Z.land flags SOCKET_FLAG_DONT_WAIT_FULL <> 0 ->
  0 < rb_size q ->
  exists o',
    run (receive data data_size None addr_ptr flags (Some r) None) o
    = Ok (tt,
          mk_state o'
            [Memcpy data
               (firstn (Z.to_nat (Z.min data_size (rb_size q))) q);
             Complete r error_none])
    /\ recv_done_info_ o' = None
    /\ stream_data_buffer_ o'
       = Some (skipn (Z.to_nat (Z.min data_size (rb_size q))) q).
Proof.
  intros Hidle Hproto Hbuf Hflag Hsize.
  apply Z.eqb_neq in Hproto. apply Z.eqb_neq in Hflag.
  destruct o; members_everywhere; subst.
  unfold receive. run_on_members.
  rewrite Hflag, Hproto.
  assert (Hne : (rb_size q =? 0) = false) by (apply Z.eqb_neq; lia).
  rewrite Hne. cbn [orb]. unfold rb_pop.
  eexists. split; [reflexivity|]. members. auto.
Qed.

(** A delivery of [n] bytes to a receive that waits for the full count:
    the bytes go into the accumulator; while it holds fewer than were
    asked for the handler returns with nothing completed and delivery
    still armed. *)
Lemma tcp_delivery_accumulates (o : inet_socket) (n : Z) (buf : list byte)
    (pushed : ring_buffer) :
  take_available_only_ o = false ->
  UV_EOF < 0 ->
  0 <= n ->
  rb_push (match stream_data_buffer_ o with Some q => q | None => [] end)
    (firstn (Z.to_nat n) buf) = Some pushed ->
  rb_size pushed < recv_size_ o ->
  run (handle_tcp_delivery n buf) o
  = Ok (false, mk_state (set_stream_data_buffer_ (Some pushed) o) []).
Proof.
  intros Htake Heof Hn Hpush Hshort.
  assert (Hne : (n =? UV_EOF) = false) by (apply Z.eqb_neq; lia).
  assert (Hpos : (n <? 0) = false) by (apply Z.ltb_ge; lia).
  assert (Hle : (recv_size_ o <=? rb_size pushed) = false)
    by (apply Z.leb_gt; lia).
  unfold handle_tcp_delivery. run_method.
  rewrite Hne, Hpos, Htake. cbn [andb orb]. rewrite Hpush, Hle.
  reflexivity.
Qed.

(** Once the accumulator holds at least the count asked for, the handler
    hands out exactly that count, keeps the rest, stops delivery and
    completes the pending receive with [error_none]. *)
Lemma tcp_delivery_completes_full (o : inet_socket) (n : Z)
    (buf : list byte) (pushed : ring_buffer) (r : request) (p : ptr) :
  recv_done_info_ o = Some r ->
  bytes_read_ o = Some p ->
  receive_done_cb_ o = None ->
  opaque_connect_ o <> None ->
  take_available_only_ o = false ->
  UV_EOF < 0 ->
  0 <= n ->
  rb_push (match stream_data_buffer_ o with Some q => q | None => [] end)
    (firstn (Z.to_nat n) buf) = Some pushed ->
  0 <= recv_size_ o <= rb_size pushed ->
  recv_size_ o < 4294967296 ->
  exists o',
    run (handle_tcp_delivery n buf) o
    = Ok (true,
          mk_state o'
            [Memcpy (read_dest_ o) (firstn (Z.to_nat (recv_size_ o)) pushed);
             Store32 p (recv_size_ o); Call uv_read_stop; Lock;
             Complete r error_none; Unlock])
    /\ recv_done_info_ o' = None
    /\ stream_data_buffer_ o'
       = Some (skipn (Z.to_nat (recv_size_ o)) pushed).
Proof.
  intros Hpending Hcount Hcb Hconn Htake Heof Hn Hpush Hfull Hsmall.
  assert (Hne : (n =? UV_EOF) = false) by (apply Z.eqb_neq; lia).
  assert (Hpos : (n <? 0) = false) by (apply Z.ltb_ge; lia).
  assert (Hle : (recv_size_ o <=? rb_size pushed) = true)
    by (apply Z.leb_le; lia).
  assert (Hmin : Z.min (recv_size_ o) (rb_size pushed) = recv_size_ o)
    by lia.
  assert (Hlen : Z.of_nat (length (firstn (Z.to_nat (recv_size_ o)) pushed))
                 = recv_size_ o).
  { rewrite length_firstn. unfold rb_size in Hfull. lia. }
  assert (Hu : u32 (recv_size_ o) = recv_size_ o)
    by (unfold u32; apply Z.mod_small; lia).
  destruct o; members_everywhere; subst.
  unfold handle_tcp_delivery. run_on_members.
  rewrite Hne, Hpos. cbn [andb orb]. rewrite Hpush, Hle.
  unfold rb_pop. rewrite Hmin, Hlen, Hu.
  destruct opaque_connect_0; [|congruence].
  eexists. split; [reflexivity|]. auto.
Qed.

(** A stream receive with nothing in the accumulator arms host delivery
    and completes nothing. *)
Lemma receive_arms_host_delivery (o : inet_socket) (data : ptr)
    (data_size : Z) (recv_size : option ptr) (addr_ptr : option saddress)
    (flags : Z) (r : request) (callback : option Z) :
  recv_done_info_ o = None ->
  protocol_ o <> INET_UDP_PROTOCOL_ID ->
  opaque_connect_ o <> None ->
  stream_data_buffer_ o = None \/ stream_data_buffer_ o = Some [] ->
  exists o',
    run (receive data data_size recv_size addr_ptr flags (Some r) callback) o
    = Ok (tt, mk_state o' [Post task_read_start])
    /\ recv_done_info_ o' = Some r.
Proof.
  intros Hidle Hproto Hconn Hbuf.
  apply Z.eqb_neq in Hproto.
  destruct o; members_everywhere; subst.
  unfold receive. run_on_members.
  destruct (Z.land flags SOCKET_FLAG_DONT_WAIT_FULL =? 0);
    rewrite Hproto;
    (destruct opaque_connect_0; [|congruence]);
    destruct Hbuf as [Hbuf|Hbuf]; rewrite Hbuf; cbn;
    eexists; (split; [reflexivity|]); reflexivity.
Qed.

(** ** Datagram receive *)

(** A datagram that [is_same_address] rejects is dropped: the handler
    leaves the session as it was and emits nothing, so delivery stays
    armed and the receive pending. *)
Lemma udp_delivery_rejected (o : inet_socket) (n : Z) (a : sockaddr) :
  family_ (listen_addr_ o) <> INVALID_FAMILY_ID ->
  is_same_address (listen_addr_ o) a = false ->
  run (handle_udp_delivery n (Some a)) o = Ok (tt, mk_state o []).
Proof.
  intros Hfilter Hdiff. apply Z.eqb_neq in Hfilter.
  unfold handle_udp_delivery. run_method. rewrite Hfilter. cbn [negb].
  rewrite Hdiff. reflexivity.
Qed.

(** A datagram of [n] bytes that passes the filter, or arrives when no
    filter is set, stops delivery, copies and reports [min n recv_size_]
    bytes and completes the pending receive with [error_none]. *)
Lemma udp_delivery_accepted (o : inet_socket) (n : Z) (a : sockaddr)
    (r : request) (p : ptr) :
  recv_done_info_ o = Some r ->
  bytes_read_ o = Some p ->
  family_ (listen_addr_ o) = INVALID_FAMILY_ID
    \/ is_same_address (listen_addr_ o) a = true ->
  UV_EOF < 0 ->
  0 <= n ->
  0 <= recv_size_ o < 4294967296 ->
  run (handle_udp_delivery n (Some a)) o
  = Ok (tt,
        mk_state (set_recv_done_info_ None o)
          [Call uv_udp_recv_stop;
           Memcpy (read_dest_ o)
             (firstn (Z.to_nat (Z.min n (recv_size_ o))) (temp_buffer_ o));
           Store32 p (Z.min n (recv_size_ o));
           Lock; Complete r error_none; Unlock]).
Proof.
  intros Hpending Hcount Hpass Heof Hn Hsize.
  assert (Hne : (n =? UV_EOF) = false) by (apply Z.eqb_neq; lia).
  assert (Hpos : (n <? 0) = false) by (apply Z.ltb_ge; lia).
  assert (Hu : u32 (Z.min n (recv_size_ o)) = Z.min n (recv_size_ o))
    by (unfold u32; apply Z.mod_small; lia).
  unfold handle_udp_delivery. run_method.
  destruct (Z.eqb_spec (family_ (listen_addr_ o)) INVALID_FAMILY_ID)
    as [Hnone|Hset]; cbn [negb].
  - rewrite Hcount, Hne, Hpos.
    repeat (progress (rewrite ?Hpending; cbn [empty negb app])).
    rewrite Hu. reflexivity.
  - destruct Hpass as [Hnone|Hsame]; [congruence|].
    rewrite Hsame. cbn [negb].
    rewrite Hcount, Hne, Hpos.
    repeat (progress (rewrite ?Hpending; cbn [empty negb app])).
    rewrite Hu. reflexivity.
Qed.

(** C5, at the failing input.  [is_same_address] compares the port of the
    sender, which the host keeps in network byte order, with the port of
    the filter, which the guest gives in host order ([GUEST_TO_BSD_ADDR]
    converts it with [htons]).  So on every host whose [htons] changes
    the filter's port, a datagram that arrives from the filter address
    itself is dropped: nothing is completed, delivery is not stopped and
    the session is as it was. *)
Theorem filter_rejects_its_own_address (o : inet_socket) (n : Z) :
  family_ (listen_addr_ o) = INET_ADDRESS_FAMILY ->
  INET_ADDRESS_FAMILY <> INVALID_FAMILY_ID ->
  htons (u16 (port_ (listen_addr_ o))) <> port_ (listen_addr_ o) ->
  run (handle_udp_delivery n (Some (GUEST_TO_BSD_ADDR (listen_addr_ o)))) o
  = Ok (tt, mk_state o []).
Proof.
  intros Hfam Hvalid Hswap.
  apply udp_delivery_rejected; [congruence|].
  unfold is_same_address, GUEST_TO_BSD_ADDR.
  apply Z.eqb_eq in Hfam. rewrite Hfam.
  apply Z.eqb_neq in Hswap. rewrite Hswap. reflexivity.
Qed.

(** [cancel_receive] completes a pending receive with [error_cancel],
    once, and empties the slot; with nothing pending it does nothing. *)
Lemma cancel_receive_effect (o : inet_socket) :
  run cancel_receive o
  = match recv_done_info_ o with
    | None => Ok (tt, mk_state o [])
    | Some r =>
        Ok (tt,
            mk_state
              (set_recv_done_info_ None (set_receive_done_cb_ None o))
              [Post (if protocol_ o =? INET_UDP_PROTOCOL_ID
                     then task_udp_recv_stop else task_read_stop);
               Complete r error_cancel])
    end.
Proof.
  destruct o; members_everywhere.
  unfold cancel_receive. run_on_members.
  destruct recv_done_info_0; [|reflexivity].
  destruct (protocol_0 =? INET_UDP_PROTOCOL_ID); reflexivity.
Qed.

(** ** Delivery with no receive pending *)

(** C9, at the failing inputs.  With no receive pending the owner pointer
    stays null, and both handlers still reach [kern->lock()]: the
    datagram handler on every delivery that is not filtered out, the
    stream handler on every end-of-stream or error status. *)
Theorem delivery_without_pending_receive (o : inet_socket) (n : Z)
    (addr : option sockaddr) (buf : list byte) :
  recv_done_info_ o = None ->
  (family_ (listen_addr_ o) = INVALID_FAMILY_ID ->
   run (handle_udp_delivery n addr) o = Fault null_dereference)
  /\ (n = UV_EOF \/ n < 0 ->
      run (handle_tcp_delivery n buf) o = Fault null_dereference).
Proof.
  intros Hidle. split.
  - intros Hnone. apply Z.eqb_eq in Hnone.
    unfold handle_udp_delivery. run_method. rewrite Hnone, Hidle.
    cbn [negb empty].
    destruct (n =? UV_EOF); [reflexivity|].
    destruct (n <? 0); [reflexivity|].
    destruct (bytes_read_ o); reflexivity.
  - intros Hstatus.
    unfold handle_tcp_delivery. run_method. rewrite Hidle. cbn [negb empty].
    destruct (Z.eqb_spec n UV_EOF) as [Heof|Heof].
    + destruct (opaque_connect_ o); reflexivity.
    + destruct Hstatus as [Hs|Hs]; [congruence|].
      apply Z.ltb_lt in Hs. rewrite Hs.
      destruct (opaque_connect_ o); reflexivity.
Qed.

(** The stream handler also faults when data that satisfy the read
    arrive with no receive pending. *)
Lemma tcp_delivery_without_pending_receive (o : inet_socket) (n : Z)
    (buf : list byte) :
  recv_done_info_ o = None ->
  take_available_only_ o = true ->
  UV_EOF < 0 ->
  0 <= n < recv_size_ o ->
  run (handle_tcp_delivery n buf) o = Fault null_dereference.
Proof.
  intros Hidle Htake Heof Hn.
  unfold handle_tcp_delivery. run_method. rewrite Hidle, Htake.
  cbn [negb empty andb].
  assert (Hne : (n =? UV_EOF) = false) by (apply Z.eqb_neq; lia).
  assert (Hpos : (n <? 0) = false) by (apply Z.ltb_ge; lia).
  assert (Hlt : (n <? recv_size_ o) = true) by (apply Z.ltb_lt; lia).
  rewrite Hne, Hpos, Hlt.
  destruct (bytes_read_ o); destruct (opaque_connect_ o); reflexivity.
Qed.

(** ** Interface enumeration *)

(** While the host keeps answering that the buffer is too small, the
    loop of the WIN32 build goes round again: the buffer is reallocated
    with the size it already has, and no count of attempts is kept. *)
Lemma query_adapters_overflow (fuel : nat) (n : nat) (o : inet_socket) :
  query_adapters fuel (fun _ => query_buffer_overflow) n o = None.
Proof.
  revert n o. induction fuel as [|fuel IH]; intros n o.
  - reflexivity.
  - cbn [query_adapters]. apply IH.
Qed.

(** The loop ends at the first answer that is not the overflow code. *)
Lemma query_adapters_ends (host : nat -> query_result) (k : nat) :
  forall (n : nat) (o : inet_socket) (fuel : nat),
    (forall j, (n <= j < n + k)%nat -> host j = query_buffer_overflow) ->
    host (n + k)%nat <> query_buffer_overflow ->
    (k < fuel)%nat ->
    query_adapters fuel host n o <> None.
Proof.
  induction k as [|k IH]; intros n o fuel Hbefore Hthen Hfuel.
  - destruct fuel as [|fuel]; [lia|]. cbn [query_adapters].
    replace (n + 0)%nat with n in Hthen by lia.
    destruct (host n); congruence.
  - destruct fuel as [|fuel]; [lia|]. cbn [query_adapters].
    rewrite (Hbefore n) by lia.
    apply IH.
    + intros j Hj. apply Hbefore. lia.
    + replace (S n + k)%nat with (n + S k)%nat by lia. exact Hthen.
    + lia.
Qed.

(** On the other builds there is one query and no loop. *)
Lemma enumeration_returns_without_loop (fuel : nat)
    (host : nat -> query_result) (o : inet_socket) :
  EKA2L1_PLATFORM_WIN32 = false ->
  start_enumerate_network_interfaces fuel host o <> None.
Proof.
  intros Hposix. unfold start_enumerate_network_interfaces.
  rewrite Hposix. destruct (host 0%nat); discriminate.
Qed.

(** C10, at the failing input.  In the WIN32 build, against a host that
    reports the buffer as too small at every query,
    [start_enumerate_network_interfaces] returns neither true nor false,
    however many iterations it is given. *)
Theorem enumeration_retries_forever (fuel : nat) (o : inet_socket) :
  EKA2L1_PLATFORM_WIN32 = true ->
  start_enumerate_network_interfaces fuel (fun _ => query_buffer_overflow) o
  = None.
Proof.
  intros Hwin. unfold start_enumerate_network_interfaces.
  rewrite Hwin. rewrite query_adapters_overflow. reflexivity.
Qed.

End Properties.

(** * Further properties of the methods *)

Section Lifecycle.
Context {K : Constants}.

(** ** Cancelling *)

(** X1.  A second [cancel_receive] in a row does nothing: cancelling twice is
    cancelling once, and no run of it completes more than one request. *)
Theorem cancel_receive_twice (o : inet_socket) :
  run (cancel_receive ;; cancel_receive) o = run cancel_receive o
  /\ (length (completions (events_of (run cancel_receive o))) <= 1)%nat.
Proof.
  destruct o; unfold cancel_receive; run_on_members.
  destruct recv_done_info_0 as [r|]; [|split; [reflexivity|cbn; lia]].
  destruct (protocol_0 =? INET_UDP_PROTOCOL_ID);
    (split; [reflexivity|cbn; lia]).
Qed.

(** X2.  [cancel_send] completes the pending send, if there is one, with
    [error_cancel] and does nothing else: it posts nothing and writes
    nothing to guest memory, so the count that [send] stored stays.  A
    native completion that arrives afterwards finds the slot empty and
    does nothing, whatever its status. *)
Theorem cancel_send_then_native_completion (o : inet_socket) (err : Z) :
  run (cancel_send ;; complete_send_done_info err) o = run cancel_send o
  /\ events_of (run cancel_send o)
     = match send_done_info_ o with
       | Some r => [Complete r error_cancel]
       | None => []
       end
  /\ session_of (run cancel_send o) = Some (set_send_done_info_ None o).
Proof.
  destruct o; unfold cancel_send, complete_send_done_info; run_on_members.
  destruct send_done_info_0; repeat split; reflexivity.
Qed.

(** X3.  The same for [cancel_connect] and a native connect result that
    arrives after it. *)
Theorem cancel_connect_then_native_completion (o : inet_socket) (err : Z) :
  run (cancel_connect ;; complete_connect_done_info err) o
  = run cancel_connect o
  /\ events_of (run cancel_connect o)
     = match connect_done_info_ o with
       | Some r => [Complete r error_cancel]
       | None => []
       end
  /\ session_of (run cancel_connect o) = Some (set_connect_done_info_ None o).
Proof.
  destruct o; unfold cancel_connect, complete_connect_done_info;
    run_on_members.
  destruct connect_done_info_0; repeat split; reflexivity.
Qed.

(** ** A send from start to completion *)


(** ** A connect from start to completion *)

(** X5.  A connect that is accepted posts one unit of work, the datagram
    connect or the stream connect to the translated address, and
    completes nothing.  The native result then completes the request
    once, with [error_none] for status 0, and leaves the connect slot
    empty, so that the next connect is accepted again. *)
Theorem connect_then_native_completion (o : inet_socket) (addr : saddress)
    (r : request) (err : Z) :
  opaque_handle_ o <> None ->
  connect_done_info_ o = None ->
  exists o' code,
    run (connect addr (Some r) ;; complete_connect_done_info err) o
    = Ok (tt,
          mk_state o'
            [Post (if protocol_ o =? INET_UDP_PROTOCOL_ID
                   then task_udp_connect (opaque_handle_ o)
                          (GUEST_TO_BSD_ADDR addr)
                   else task_tcp_connect (GUEST_TO_BSD_ADDR addr));
             Complete r code])
    /\ (err = 0 -> code = error_none)
    /\ (err <> 0 -> code <> error_none)
    /\ connect_done_info_ o' = None
    /\ (protocol_ o <> INET_UDP_PROTOCOL_ID -> opaque_connect_ o' <> None).
Proof.
  intros Hopen Hidle.
  destruct o; members_everywhere; subst.
  destruct opaque_handle_0 as [h|]; [|congruence].
  unfold connect, complete_connect_done_info, handle_connect_done_error_code.
  run_on_members.
  destruct (Z.eqb_spec protocol_0 INET_UDP_PROTOCOL_ID) as [Hudp|Hstream].
  - destruct (Z.eqb_spec err 0) as [Hz|Hnz].
    + eexists; eexists; split; [reflexivity|].
      repeat split; try reflexivity; congruence.
    + eexists; eexists; split; [reflexivity|].
      repeat split; try reflexivity; try congruence.
      repeat match goal with
             | |- context [if ?b then _ else _] => destruct b
             end; discriminate.
  - destruct opaque_connect_0;
      destruct (Z.eqb_spec err 0) as [Hz|Hnz];
      (eexists; eexists; split; [reflexivity|]);
      repeat split; try reflexivity; try congruence; try discriminate;
      repeat match goal with
             | |- context [if ?b then _ else _] => destruct b
             end; discriminate.
Qed.

End Lifecycle.

Section Deliveries.
Context {K : Constants}.

(** ** Datagrams *)

(** X6.  A datagram receive without a filter, followed by the arrival of a
    datagram of [n] bytes from any sender: whatever filter an earlier
    receive had left in the session, the first delivery stops delivery,
    copies [min n data_size] of the arriving bytes to the buffer given to
    [receive], stores that count and completes the request with
    [error_none] under the owner's lock.  The callback given to [receive]
    is neither called nor dropped by the datagram handler. *)
Theorem unfiltered_datagram_receive (o : inet_socket) (data : ptr)
    (data_size : Z) (p : ptr) (flags : Z) (r : request)
    (callback : option Z) (arriving : list byte) (n : Z) (a : sockaddr) :
  opaque_handle_ o <> None ->
  recv_done_info_ o = None ->
  protocol_ o = INET_UDP_PROTOCOL_ID ->
  UV_EOF < 0 ->
  0 <= n ->
  0 <= data_size < 4294967296 ->
  exists o',
    run (receive data data_size (Some p) None flags (Some r) callback ;;
         prepare_buffer_for_recv arriving ;;
         handle_udp_delivery n (Some a)) o
    = Ok (tt,
          mk_state o'
            [Post task_udp_recv_start; Call uv_udp_recv_stop;
             Memcpy data (firstn (Z.to_nat (Z.min n data_size)) arriving);
             Store32 p (Z.min n data_size);
             Lock; Complete r error_none; Unlock])
    /\ recv_done_info_ o' = None
    /\ receive_done_cb_ o' = callback.
Proof.
  intros Hopen Hidle Hudp Heof Hn Hsize.
  assert (Hne : (n =? UV_EOF) = false) by (apply Z.eqb_neq; lia).
  assert (Hpos : (n <? 0) = false) by (apply Z.ltb_ge; lia).
  assert (Hu : u32 (Z.min n data_size) = Z.min n data_size)
    by (unfold u32; apply Z.mod_small; lia).
  destruct o; members_everywhere; subst.
  destruct opaque_handle_0 as [h|]; [|congruence].
  unfold receive, prepare_buffer_for_recv, handle_udp_delivery.
  run_on_members.
  destruct (Z.land flags SOCKET_FLAG_DONT_WAIT_FULL =? 0);
    run_on_members; rewrite !Z.eqb_refl; run_on_members;
    rewrite Hne, Hpos, Hu;
    eexists; (split; [reflexivity|]); split; reflexivity.
Qed.


(** ** Streams *)

(** X9.  A stream delivery with the end-of-file status or another negative
    status stops reading, calls the receive callback with that status if
    there is one, and completes the pending receive with [error_eof] or
    [error_general]; the accumulator keeps what it holds and nothing is
    written to guest memory. *)
Theorem tcp_delivery_error_status (o : inet_socket) (n : Z)
    (buf : list byte) (r : request) :
  recv_done_info_ o = Some r ->
  opaque_connect_ o <> None ->
  n = UV_EOF \/ n < 0 ->
  exists o',
    run (handle_tcp_delivery n buf) o
    = Ok (true,
          mk_state o'
            ([Call uv_read_stop; Lock]
             ++ match receive_done_cb_ o with
                | Some cb => [ReceiveDoneCb cb n]
                | None => []
                end
             ++ [Complete r (if n =? UV_EOF then error_eof
                             else error_general);
                 Unlock]))
    /\ recv_done_info_ o' = None
    /\ receive_done_cb_ o' = None
    /\ stream_data_buffer_ o' = stream_data_buffer_ o.
Proof.
  intros Hpending Hconn Hstatus.
  destruct o; members_everywhere; subst.
  destruct opaque_connect_0 as [c|]; [|congruence].
  unfold handle_tcp_delivery. run_on_members.
  destruct (Z.eqb_spec n UV_EOF) as [Heof|Heof].
  - destruct receive_done_cb_0; eexists; (split; [reflexivity|]);
      repeat split; reflexivity.
  - destruct Hstatus as [Hs|Hs]; [congruence|].
    apply Z.ltb_lt in Hs. rewrite Hs.
    destruct receive_done_cb_0; eexists; (split; [reflexivity|]);
      repeat split; reflexivity.
Qed.

End Deliveries.

Section GuestBuffer.
Context {K : Constants}.

(** ** The guest buffer *)












(** ** The accumulator *)

(** X11.  A stream delivery of [n] bytes to a pending receive loses and
    reorders nothing: the bytes the handler copies to the guest buffer,
    followed by what the accumulator holds afterwards, are what the
    accumulator held before followed by the [n] delivered bytes.  The
    handler completes the receive, once and with [error_none], exactly
    when it runs to its end. *)
Theorem tcp_delivery_conserves_bytes (o : inet_socket) (n : Z)
    (buf : list byte) (r : request) :
  recv_done_info_ o = Some r ->
  opaque_connect_ o <> None ->
  UV_EOF < 0 ->
  0 <= n ->
  rb_size (accumulated o) + n <= RING_CAPACITY ->
  (take_available_only_ o = true -> accumulated o = []) ->
  exists done st,
    run (handle_tcp_delivery n buf) o = Ok (done, st)
    /\ copied (read_dest_ o) (trace st) ++ accumulated (self st)
       = accumulated o ++ firstn (Z.to_nat n) buf
    /\ completions (trace st)
       = (if done then [Complete r error_none] else []).
Proof.
  intros Hpending Hconn Heof Hn Hroom Hempty.
  assert (Hne : (n =? UV_EOF) = false) by (apply Z.eqb_neq; lia).
  assert (Hpos : (n <? 0) = false) by (apply Z.ltb_ge; lia).
  assert (Hpush :
    rb_push (accumulated o) (firstn (Z.to_nat n) buf)
    = Some (accumulated o ++ firstn (Z.to_nat n) buf)).
  { unfold rb_push.
    assert (Hfits : (rb_size (accumulated o)
                     + Z.of_nat (length (firstn (Z.to_nat n) buf))
                     <=? RING_CAPACITY) = true).
    { apply Z.leb_le. rewrite length_firstn. lia. }
    rewrite Hfits. reflexivity. }
  unfold accumulated in *.
  destruct o; members_everywhere; subst.
  destruct opaque_connect_0 as [c|]; [|congruence].
  unfold handle_tcp_delivery. run_on_members.
  rewrite Hne, Hpos.
  destruct stream_data_buffer_0 as [q|]; cbn [app] in Hpush;
    (destruct take_available_only_0;
     [ specialize (Hempty eq_refl); try subst q; cbn [app] in Hpush;
       destruct (n <? recv_size_0); cbn [andb orb];
       [ destruct bytes_read_0; destruct receive_done_cb_0;
         eexists; eexists; (split; [reflexivity|]);
         cbn [trace self stream_data_buffer_ copied app completions filter
              is_completion];
         rewrite ?Z.eqb_refl, ?app_nil_r; split; reflexivity
       | rewrite Hpush; unfold rb_pop;
         destruct bytes_read_0; destruct receive_done_cb_0;
         eexists; eexists; (split; [reflexivity|]);
         cbn [trace self stream_data_buffer_ copied app completions filter
              is_completion];
         rewrite ?Z.eqb_refl, ?app_nil_r;
         (split; [apply firstn_skipn|reflexivity]) ]
     | cbn [andb orb]; rewrite Hpush; unfold rb_pop;
       destruct (recv_size_0 <=? _);
       [ destruct bytes_read_0; destruct receive_done_cb_0;
         eexists; eexists; (split; [reflexivity|]);
         cbn [trace self stream_data_buffer_ copied app completions filter
              is_completion];
         rewrite ?Z.eqb_refl, ?app_nil_r;
         (split; [apply firstn_skipn|reflexivity])
       | eexists; eexists; (split; [reflexivity|]);
         cbn [trace self stream_data_buffer_ copied app completions filter];
         split; reflexivity ] ]).
Qed.

End GuestBuffer.

Section Addresses.
Context {K : Constants}.

(** ** Addresses *)

Lemma bytes_eqb_eq (a b : list byte) : bytes_eqb a b = true <-> a = b.
Proof.
  revert b. induction a as [|x a IH]; intros [|y b]; cbn [bytes_eqb].
  - tauto.
  - split; discriminate.
  - split; discriminate.
  - rewrite andb_true_iff, Z.eqb_eq, IH. split.
    + intros [-> ->]. reflexivity.
    + intros E. injection E as -> ->. split; reflexivity.
Qed.

(** X13.  What [is_same_address] accepts, exactly: for a filter of the IPv4
    family, the IPv4 senders whose port field equals the filter's port
    and whose four address bytes are the filter's; for a filter of any
    other family, the IPv6 senders whose port, flow and scope fields
    equal the filter's and whose sixteen address bytes are the filter's.
    A sender of another family is never accepted. *)
Theorem is_same_address_exact (f : saddress) (a : sockaddr) :
  is_same_address f a = true
  <-> (family_ f = INET_ADDRESS_FAMILY
       /\ exists bytes,
            a = sockaddr_in (port_ f) bytes
            /\ firstn 4 bytes = firstn 4 (user_data_ f))
      \/ (family_ f <> INET_ADDRESS_FAMILY
          /\ exists bytes,
               a = sockaddr_in6 (port_ f) (get_flow f) (get_scope f) bytes
               /\ firstn 16 bytes = firstn 16 (get_address_32x4 f)).
Proof.
  unfold is_same_address, memcmp_zero.
  destruct (Z.eqb_spec (family_ f) INET_ADDRESS_FAMILY) as [Hv4|Hv6].
  - destruct a as [port bytes|port flow scope bytes|fam].
    + destruct (Z.eqb_spec port (port_ f)) as [Hp|Hp]; cbn [negb orb].
      * destruct (bytes_eqb (firstn 4 bytes) (firstn 4 (user_data_ f)))
          eqn:Hb; cbn [negb].
        -- apply bytes_eqb_eq in Hb. split; [|reflexivity].
           intros _. left. split; [exact Hv4|]. exists bytes. subst port.
           split; [reflexivity|exact Hb].
        -- split; [discriminate|].
           intros [[_ (bytes' & E & Hb')]|[Hne _]]; [|contradiction].
           injection E as _ <-. apply bytes_eqb_eq in Hb'. congruence.
      * split; [discriminate|].
        intros [[_ (bytes' & E & _)]|[Hne _]]; [|contradiction].
        injection E as -> _. contradiction.
    + split; [discriminate|].
      intros [[_ (bytes' & E & _)]|[Hne _]]; [discriminate|contradiction].
    + split; [discriminate|].
      intros [[_ (bytes' & E & _)]|[Hne _]]; [discriminate|contradiction].
  - destruct a as [port bytes|port flow scope bytes|fam].
    + split; [discriminate|].
      intros [[Hv4 _]|[_ (bytes' & E & _)]]; [contradiction|discriminate].
    + destruct (Z.eqb_spec port (port_ f)) as [Hp|Hp];
        destruct (Z.eqb_spec scope (get_scope f)) as [Hs|Hs];
        destruct (Z.eqb_spec flow (get_flow f)) as [Hf|Hf];
        destruct (bytes_eqb (firstn 16 bytes)
                    (firstn 16 (get_address_32x4 f))) eqn:Hb;
        cbn [negb orb];
        try (split; [discriminate|];
             intros [[Hv4 _]|[_ (bytes' & E & Hb')]]; [contradiction|];
             injection E as -> -> -> <-;
             try contradiction;
             apply bytes_eqb_eq in Hb'; congruence).
      apply bytes_eqb_eq in Hb. split; [|reflexivity].
      intros _. right. split; [exact Hv6|]. exists bytes. subst.
      split; [reflexivity|exact Hb].
    + split; [discriminate|].
      intros [[Hv4 _]|[_ (bytes' & E & _)]]; [contradiction|discriminate].
Qed.

(** X14.  The translation of a guest address to a host address passes the
    filter made of that same guest address exactly when the host's
    [htons] leaves its port unchanged, for an IPv4 and for an IPv6
    address alike: the address bytes, the flow and the scope always
    agree. *)
Theorem filter_accepts_own_address_iff (f : saddress) :
  is_same_address f (GUEST_TO_BSD_ADDR f) = true
  <-> htons (u16 (port_ f)) = port_ f.
Proof.
  unfold is_same_address, GUEST_TO_BSD_ADDR, memcmp_zero.
  destruct (family_ f =? INET_ADDRESS_FAMILY).
  - rewrite firstn_firstn.
    assert (Hb : bytes_eqb (firstn (Nat.min 4 4) (user_data_ f))
                   (firstn 4 (user_data_ f)) = true)
      by (apply bytes_eqb_eq; reflexivity).
    rewrite Hb. cbn [negb orb].
    destruct (Z.eqb_spec (htons (u16 (port_ f))) (port_ f));
      cbn [negb orb]; split; congruence.
  - rewrite firstn_firstn, !Z.eqb_refl.
    assert (Hb : bytes_eqb (firstn (Nat.min 16 16) (get_address_32x4 f))
                   (firstn 16 (get_address_32x4 f)) = true)
      by (apply bytes_eqb_eq; reflexivity).
    rewrite Hb. cbn [negb orb].
    destruct (Z.eqb_spec (htons (u16 (port_ f))) (port_ f));
      cbn [negb orb]; split; congruence.
Qed.

End Addresses.

Section NamesOfASocket.
Context {K : Constants} {H : NameHost}.

(** ** Names *)


End NamesOfASocket.

Section InterfaceOptions.
Context {K : Constants} {I : OptionIds}.

(** ** Enumerating the interfaces through the options *)

Lemma next_interface_dispatch (avail_size : Z) (o : inet_socket) :
  get_option INET_NEXT_INTERFACE_OPT INET_INTERFACE_CONTROL_OPT_FAMILY
    avail_size o
  = retrieve_next_interface_info avail_size o.
Proof.
  unfold get_option. rewrite !Z.eqb_refl. reflexivity.
Qed.

Lemma cursor_assigned_twice (a b : list Z) (o : inet_socket) :
  set_opaque_interface_info_current_ a
    (set_opaque_interface_info_current_ b o)
  = set_opaque_interface_info_current_ a o.
Proof. destruct o; reflexivity. Qed.

Lemma cursor_assigned_same (o : inet_socket) :
  set_opaque_interface_info_current_ (opaque_interface_info_current_ o) o = o.
Proof. destruct o; reflexivity. Qed.

(** Past the last entry every call answers [error_eof]. *)
Lemma next_interfaces_at_end (m : nat) (o : inet_socket)
    (block : interface_block) :
  opaque_interface_info_ o = Some block ->
  opaque_interface_info_current_ o = [] ->
  next_interfaces m sizeof_inet_interface_info o
  = Some (repeat (getopt_error error_eof) m, o).
Proof.
  intros Hinfo Hend. induction m as [|m IH]; [reflexivity|].
  cbn [next_interfaces repeat]. rewrite next_interface_dispatch.
  unfold retrieve_next_interface_info. rewrite Hinfo, Hend, IH. reflexivity.
Qed.

(** From a cursor with [rest] still to come, the calls answer the
    entries of [rest] in order and then [error_eof]. *)
Lemma next_interfaces_from_cursor (rest : list Z) :
  forall (m : nat) (o : inet_socket) (all : list Z),
    opaque_interface_info_ o = Some (ifaddrs all) ->
    opaque_interface_info_current_ o = rest ->
    next_interfaces (length rest + m) sizeof_inet_interface_info o
    = Some (map (fun e => getopt_entry e sizeof_inet_interface_info) rest
              ++ repeat (getopt_error error_eof) m,
            set_opaque_interface_info_current_ [] o).
Proof.
  induction rest as [|e rest IH]; intros m o all Hinfo Hcur.
  - cbn [length Nat.add map app].
    rewrite (next_interfaces_at_end m o _ Hinfo Hcur).
    rewrite <- Hcur, cursor_assigned_same. reflexivity.
  - cbn [length Nat.add map app next_interfaces].
    rewrite next_interface_dispatch.
    unfold retrieve_next_interface_info. rewrite Hinfo, Hcur.
    rewrite Z.eqb_refl. cbn [negb].
    rewrite (IH m (set_opaque_interface_info_current_ rest o) all).
    + rewrite cursor_assigned_twice. reflexivity.
    + destruct o; exact Hinfo.
    + destruct o; reflexivity.
Qed.


(** X17.  On the builds that use [getifaddrs]: when the host reports the
    interfaces [entries], at least one, the enumeration request succeeds,
    whatever snapshot and cursor the session had before, and the
    next-interface option then answers each interface once, in the
    host's order, and [error_eof] on every call after the last. *)
Theorem enumeration_yields_every_interface (o : inet_socket) (fuel : nat)
    (host : nat -> query_result) (entries : list Z) (m : nat) :
  EKA2L1_PLATFORM_WIN32 = false ->
  host 0%nat = query_success entries ->
  entries <> [] ->
  exists o1 o2,
    set_option INET_ENUM_INTERFACES_OPT INET_INTERFACE_CONTROL_OPT_FAMILY
      fuel host o
    = Some (setopt_done true, o1)
    /\ next_interfaces (length entries + m) sizeof_inet_interface_info o1
       = Some (map (fun e => getopt_entry e sizeof_inet_interface_info)
                 entries
               ++ repeat (getopt_error error_eof) m,
               o2).
Proof.
  intros Hposix Hhost Hsome.
  unfold set_option, start_enumerate_network_interfaces.
  rewrite !Z.eqb_refl, Hposix, Hhost. cbn [andb].
  destruct entries as [|e entries]; [congruence|].
  eexists; eexists. split; [reflexivity|].
  apply (next_interfaces_from_cursor (e :: entries) m _ (e :: entries)).
  - destruct o as [? ? ? ? ? ? ? ? ? ? ? ? ? ? ? ? ? ii ?]; destruct ii;
      reflexivity.
  - destruct o as [? ? ? ? ? ? ? ? ? ? ? ? ? ? ? ? ? ii ?]; destruct ii;
      reflexivity.
Qed.

(** X18.  On those builds, when the host query fails, the enumeration request
    fails and the session has no snapshot any more, also when it had one
    before: the next-interface option answers [error_not_ready]. *)
Theorem failed_refresh_forgets_snapshot (o : inet_socket) (fuel : nat)
    (host : nat -> query_result) (avail_size : Z) :
  EKA2L1_PLATFORM_WIN32 = false ->
  (forall entries, host 0%nat <> query_success entries) ->
  exists o1,
    set_option INET_ENUM_INTERFACES_OPT INET_INTERFACE_CONTROL_OPT_FAMILY
      fuel host o
    = Some (setopt_done false, o1)
    /\ get_option INET_NEXT_INTERFACE_OPT INET_INTERFACE_CONTROL_OPT_FAMILY
         avail_size o1
       = Some (getopt_error error_not_ready, o1).
Proof.
  intros Hposix Hfail.
  unfold set_option, start_enumerate_network_interfaces.
  rewrite !Z.eqb_refl, Hposix. cbn [andb].
  destruct (host 0%nat) as [entries| |code] eqn:Hhost.
  - exfalso. exact (Hfail entries eq_refl).
  - eexists. split; [reflexivity|].
    rewrite next_interface_dispatch. unfold retrieve_next_interface_info.
    destruct o as [? ? ? ? ? ? ? ? ? ? ? ? ? ? ? ? ? ii ?]; destruct ii;
      reflexivity.
  - eexists. split; [reflexivity|].
    rewrite next_interface_dispatch. unfold retrieve_next_interface_info.
    destruct o as [? ? ? ? ? ? ? ? ? ? ? ? ? ? ? ? ? ii ?]; destruct ii;
      reflexivity.
Qed.

(** X19.  On the WIN32 build, on a session whose snapshot pointer does not
    dangle, when the host answers the first query.  If it reports the
    interfaces [entries], at least one, the enumeration request returns
    true after that one query, with the snapshot holding [entries] and
    the cursor at its head, and nothing else in the session changed.  If
    it reports an error, the request returns false and nothing in the
    session has changed but the snapshot pointer, which is left pointing
    at the block just freed; it is not null, so the next-interface
    option passes its first guard: it answers [error_eof] when the
    cursor is null and [error_argument] for a buffer of the wrong size,
    and otherwise reads the entry out of freed memory, for which there
    is no result. *)
Theorem enumeration_on_win32 (o : inet_socket) (fuel : nat)
    (host : nat -> query_result) (avail_size : Z) :
  EKA2L1_PLATFORM_WIN32 = true ->
  opaque_interface_info_ o <> Some released ->
  (0 < fuel)%nat ->
  (forall entries,
     host 0%nat = query_success entries ->
     entries <> [] ->
     set_option INET_ENUM_INTERFACES_OPT INET_INTERFACE_CONTROL_OPT_FAMILY
       fuel host o
     = Some (setopt_done true,
             set_opaque_interface_info_current_ entries
               (set_opaque_interface_info_ (Some (ifaddrs entries)) o)))
  /\ (forall code,
        host 0%nat = query_error code ->
        set_option INET_ENUM_INTERFACES_OPT INET_INTERFACE_CONTROL_OPT_FAMILY
          fuel host o
        = Some (setopt_done false,
                set_opaque_interface_info_ (Some released) o)
        /\ get_option INET_NEXT_INTERFACE_OPT
             INET_INTERFACE_CONTROL_OPT_FAMILY avail_size
             (set_opaque_interface_info_ (Some released) o)
           = match opaque_interface_info_current_ o with
             | [] =>
                 Some (getopt_error error_eof,
                       set_opaque_interface_info_ (Some released) o)
             | _ :: _ =>
                 if avail_size =? sizeof_inet_interface_info
                 then None
                 else Some (getopt_error error_argument,
                            set_opaque_interface_info_ (Some released) o)
             end).
Proof.
  intros Hwin Hlive Hfuel.
  destruct fuel as [|fuel]; [lia|].
  unfold set_option, start_enumerate_network_interfaces.
  rewrite !Z.eqb_refl, Hwin. cbn [andb query_adapters].
  destruct o as [? ? ? ? ? ? ? ? ? ? ? ? ? ? ? ? ? ii cur].
  split.
  - intros entries Hhost Hsome. rewrite Hhost.
    destruct ii; reflexivity.
  - intros code Hhost. rewrite Hhost. split.
    + destruct ii; reflexivity.
    + rewrite next_interface_dispatch. unfold retrieve_next_interface_info.
      cbn [opaque_interface_info_ opaque_interface_info_current_
           set_opaque_interface_info_].
      destruct cur as [|entry next]; [reflexivity|].
      destruct (avail_size =? sizeof_inet_interface_info); reflexivity.
Qed.

End InterfaceOptions.

Section Creating.
Context {K : Constants}.

(** ** Refusing to open, and creating a socket *)

Lemma illegal_pair_checked (sock_type : socket_type) (protocol_id : Z) :
  ~ legal_pair sock_type protocol_id ->
  match sock_type with
  | socket_type_datagram => protocol_id =? INET_UDP_PROTOCOL_ID
  | socket_type_stream => protocol_id =? INET_TCP_PROTOCOL_ID
  | socket_type_other _ => false
  end = false.
Proof.
  intros Hillegal. unfold legal_pair in Hillegal.
  destruct sock_type; [| |reflexivity].
  - destruct (Z.eqb_spec protocol_id INET_UDP_PROTOCOL_ID); [|reflexivity].
    exfalso. apply Hillegal. left. auto.
  - destruct (Z.eqb_spec protocol_id INET_TCP_PROTOCOL_ID); [|reflexivity].
    exfalso. apply Hillegal. right. auto.
Qed.

(** X20.  [open] refuses, returning false, when socket type and protocol are
    not one of the two legal pairs and when the session already has a
    native handle; in both cases before anything is allocated or posted:
    the session is exactly as it was and there is no event, whatever the
    native layer would have answered. *)
Theorem open_refuses_without_effect (o : inet_socket)
    (family_id protocol_id : Z) (sock_type : socket_type) (init_result : Z) :
  ~ legal_pair sock_type protocol_id \/ opaque_handle_ o <> None ->
  run (open family_id protocol_id sock_type init_result) o
  = Ok (false, mk_state o []).
Proof.
  intros Hrefused. unfold open.
  destruct (match sock_type with
            | socket_type_datagram => protocol_id =? INET_UDP_PROTOCOL_ID
            | socket_type_stream => protocol_id =? INET_TCP_PROTOCOL_ID
            | socket_type_other _ => false
            end) eqn:Hchecked; cbn [negb]; [|reflexivity].
  destruct Hrefused as [Hillegal|Hopen].
  - rewrite (illegal_pair_checked _ _ Hillegal) in Hchecked. discriminate.
  - run_method. destruct (opaque_handle_ o); [reflexivity|congruence].
Qed.

(** X21.  [make_socket], on a newly constructed object without a native
    handle.  For a legal pair whose native initialisation succeeds it
    returns the socket, opened, with its handle and its protocol.  For an
    illegal pair it returns no socket and nothing at all has been posted
    to the looper.  For a legal pair whose native initialisation fails it
    returns no socket either, and the handle that [open] had allocated
    has been closed and freed by the destructor. *)
Theorem make_socket_result (fresh : inet_socket) (family_id protocol_id : Z)
    (sock_type : socket_type) (init_result : Z) :
  opaque_handle_ fresh = None ->
  (legal_pair sock_type protocol_id -> 0 <= init_result ->
   exists sock tr,
     run (make_socket family_id protocol_id sock_type init_result) fresh
     = Ok (Some sock, mk_state sock tr)
     /\ opaque_handle_ sock <> None
     /\ protocol_ sock = protocol_id)
  /\ (~ legal_pair sock_type protocol_id ->
      exists o',
        run (make_socket family_id protocol_id sock_type init_result) fresh
        = Ok (None, mk_state o' []))
  /\ (legal_pair sock_type protocol_id -> init_result < 0 ->
      exists o',
        run (make_socket family_id protocol_id sock_type init_result) fresh
        = Ok (None,
              mk_state o'
                [Post (if protocol_id =? INET_TCP_PROTOCOL_ID
                       then task_tcp_init else task_udp_init);
                 Call initialize_looper; Post task_close])
        /\ opaque_handle_ o' = None).
Proof.
  intros Hnull.
  destruct fresh as [h p c s w ? ? ? ? ? ? ? ? ? ? ? ? ii ?].
  cbn [opaque_handle_] in Hnull. subst h.
  split; [|split].
  - intros Hlegal Hres. apply Z.ltb_ge in Hres.
    unfold make_socket, open.
    rewrite (legal_pair_checked _ _ Hlegal). run_on_members.
    destruct (protocol_id =? INET_TCP_PROTOCOL_ID); rewrite Hres;
      eexists; eexists; (split; [reflexivity|]); split;
      [discriminate|reflexivity|discriminate|reflexivity].
  - intros Hillegal.
    unfold make_socket, open, destructor, close_down, run_request_callbacks.
    rewrite (illegal_pair_checked _ _ Hillegal). run_on_members.
    destruct c; destruct s; destruct w; destruct ii;
      eexists; reflexivity.
  - intros Hlegal Hres. apply Z.ltb_lt in Hres.
    unfold make_socket, open, destructor, close_down, run_request_callbacks.
    rewrite (legal_pair_checked _ _ Hlegal). run_on_members.
    destruct (protocol_id =? INET_TCP_PROTOCOL_ID); rewrite Hres;
      destruct c; destruct s; destruct w; destruct ii;
      eexists; (split; reflexivity).
Qed.

End Creating.

Section Reassembly.
Context {K : Constants}.

(** ** A receive that waits for the full count, over several deliveries *)

Lemma run_and_then_silent {A B : Type} (c : M A) (k : A -> M B)
    (o o' : inet_socket) (a : A) :
  run c o = Ok (a, mk_state o' []) ->
  run (and_then c k) o = run (k a) o'.
Proof.
  unfold run, and_then. intros Hc. rewrite Hc. reflexivity.
Qed.

Lemma rb_push_fits (q : ring_buffer) (data : list byte) :
  rb_size q + Z.of_nat (length data) <= RING_CAPACITY ->
  rb_push q data = Some (q ++ data).
Proof.
  intros Hfits. unfold rb_push. apply Z.leb_le in Hfits.
  rewrite Hfits. reflexivity.
Qed.

(** While the chunks together with what the accumulator holds stay short
    of the count asked for, every delivery only adds to the
    accumulator. *)
Lemma deliveries_accumulate (chunks : list (list byte)) :
  forall o : inet_socket,
    take_available_only_ o = false ->
    UV_EOF < 0 ->
    rb_size (accumulated o) + Z.of_nat (length (concat chunks))
      < recv_size_ o ->
    recv_size_ o <= RING_CAPACITY ->
    exists o',
      run (deliveries chunks) o
      = Ok (repeat false (length chunks), mk_state o' [])
      /\ accumulated o' = accumulated o ++ concat chunks
      /\ set_stream_data_buffer_ (stream_data_buffer_ o) o' = o.
Proof.
  induction chunks as [|chunk later IH]; intros o Htake Heof Hshort Hcap.
  - exists o. cbn [concat]. rewrite app_nil_r.
    repeat split. destruct o; reflexivity.
  - cbn [concat] in Hshort. rewrite length_app in Hshort.
    assert (Hwhole : firstn (Z.to_nat (Z.of_nat (length chunk))) chunk = chunk)
      by (rewrite Nat2Z.id; apply firstn_all).
    assert (Hpush :
      rb_push (match stream_data_buffer_ o with Some q => q | None => [] end)
        (firstn (Z.to_nat (Z.of_nat (length chunk))) chunk)
      = Some (accumulated o ++ chunk)).
    { rewrite Hwhole. apply (rb_push_fits (accumulated o) chunk).
      unfold rb_size in *. lia. }
    assert (Hless : rb_size (accumulated o ++ chunk) < recv_size_ o).
    { unfold rb_size in *. rewrite length_app. lia. }
    pose proof (tcp_delivery_accumulates o (Z.of_nat (length chunk)) chunk
                  (accumulated o ++ chunk) Htake Heof
                  (Nat2Z.is_nonneg _) Hpush Hless) as Hfirst.
    destruct (IH (set_stream_data_buffer_ (Some (accumulated o ++ chunk)) o))
      as (o' & Hrest & Hheld & Hsame).
    + destruct o; exact Htake.
    + exact Heof.
    + assert (Hacc : accumulated
                       (set_stream_data_buffer_
                          (Some (accumulated o ++ chunk)) o)
                     = accumulated o ++ chunk) by (destruct o; reflexivity).
      assert (Hrs : recv_size_
                      (set_stream_data_buffer_
                         (Some (accumulated o ++ chunk)) o)
                    = recv_size_ o) by (destruct o; reflexivity).
      rewrite Hacc, Hrs. unfold rb_size in *. rewrite length_app. lia.
    + destruct o; exact Hcap.
    + exists o'. split; [|split].
      * cbn [deliveries length repeat].
        rewrite (run_and_then_silent _ _ _ _ _ Hfirst).
        unfold run, and_then, ret in *. cbv beta.
        match goal with
        | |- match ?t with _ => _ end = _ =>
            replace t
              with (@Ok (list bool * state)
                      (repeat false (length later), mk_state o' []))
              by (symmetry; exact Hrest)
        end.
        reflexivity.
      * rewrite Hheld.
        assert (Hacc : accumulated
                         (set_stream_data_buffer_
                            (Some (accumulated o ++ chunk)) o)
                       = accumulated o ++ chunk) by (destruct o; reflexivity).
        rewrite Hacc. cbn [concat]. rewrite app_assoc. reflexivity.
      * destruct o; destruct o'; members_everywhere.
        inversion Hsame; subst. reflexivity.
Qed.

(** X12.  A receive of [recv_size_] bytes that waits for the full count is
    completed by the first delivery with which the accumulator and the
    chunks delivered so far reach that count, and not before.  It then
    gets exactly the first [recv_size_] bytes of the stream, in order,
    and the bytes beyond them stay in the accumulator for the next
    receive. *)
Theorem stream_reassembly (o : inet_socket) (chunks : list (list byte))
    (last : list byte) (r : request) (p : ptr) :
  recv_done_info_ o = Some r ->
  bytes_read_ o = Some p ->
  receive_done_cb_ o = None ->
  opaque_connect_ o <> None ->
  take_available_only_ o = false ->
  UV_EOF < 0 ->
  rb_size (accumulated o ++ concat chunks) < recv_size_ o ->
  recv_size_ o <= rb_size (accumulated o ++ concat chunks ++ last) ->
  rb_size (accumulated o ++ concat chunks ++ last) <= RING_CAPACITY ->
  recv_size_ o < 4294967296 ->
  exists o',
    run (before <- deliveries chunks ;;
         done <- handle_tcp_delivery (Z.of_nat (length last)) last ;;
         ret (before, done)) o
    = Ok ((repeat false (length chunks), true),
          mk_state o'
            [Memcpy (read_dest_ o)
               (firstn (Z.to_nat (recv_size_ o))
                  (accumulated o ++ concat chunks ++ last));
             Store32 p (recv_size_ o); Call uv_read_stop; Lock;
             Complete r error_none; Unlock])
    /\ recv_done_info_ o' = None
    /\ accumulated o'
       = skipn (Z.to_nat (recv_size_ o))
           (accumulated o ++ concat chunks ++ last).
Proof.
  intros Hpending Hcount Hcb Hconn Htake Heof Hshort Hfull Hcap Hsmall.
  unfold rb_size in Hshort, Hfull, Hcap.
  rewrite !length_app in *.
  destruct (deliveries_accumulate chunks o Htake Heof)
    as (o1 & Hrun1 & Hheld1 & Hsame1);
    [unfold rb_size; lia|lia|].
  assert (Hfields :
    recv_done_info_ o1 = Some r /\ bytes_read_ o1 = Some p
    /\ receive_done_cb_ o1 = None /\ opaque_connect_ o1 <> None
    /\ take_available_only_ o1 = false /\ recv_size_ o1 = recv_size_ o
    /\ read_dest_ o1 = read_dest_ o).
  { rewrite <- Hsame1 in Hpending, Hcount, Hcb, Hconn, Htake |- *.
    destruct o1; cbn in *. repeat split; assumption. }
  destruct Hfields as (Hp1 & Hc1 & Hcb1 & Hconn1 & Ht1 & Hrs1 & Hrd1).
  assert (Hwhole : firstn (Z.to_nat (Z.of_nat (length last))) last = last)
    by (rewrite Nat2Z.id; apply firstn_all).
  assert (Hpush :
    rb_push (match stream_data_buffer_ o1 with Some q => q | None => [] end)
      (firstn (Z.to_nat (Z.of_nat (length last))) last)
    = Some (accumulated o ++ concat chunks ++ last)).
  { rewrite Hwhole. rewrite app_assoc, <- Hheld1.
    apply (rb_push_fits (accumulated o1) last).
    rewrite Hheld1. unfold rb_size. rewrite length_app. lia. }
  destruct (tcp_delivery_completes_full o1 (Z.of_nat (length last)) last
              (accumulated o ++ concat chunks ++ last) r p
              Hp1 Hc1 Hcb1 Hconn1 Ht1 Heof (Nat2Z.is_nonneg _) Hpush)
    as (o' & Hrun2 & Hdone & Hrest).
  { rewrite Hrs1. unfold rb_size. rewrite !length_app. lia. }
  { rewrite Hrs1. exact Hsmall. }
  exists o'. rewrite Hrs1, Hrd1 in Hrun2. rewrite Hrs1 in Hrest.
  split; [|split].
  - rewrite (run_and_then_silent _ _ _ _ _ Hrun1).
    unfold run, and_then, ret in *. cbv beta.
    match goal with
    | |- match ?t with _ => _ end = _ =>
        match type of Hrun2 with
        | _ = ?v => replace t with v by (symmetry; exact Hrun2)
        end
    end.
    reflexivity.
  - exact Hdone.
  - unfold accumulated at 1. rewrite Hrest. reflexivity.
Qed.

(** ** A datagram receive with a filter, from the call to the delivery *)

(** X7.  A datagram receive with a filter address assigns the members of
    the request and the filter and arms delivery.  A datagram from a
    sender that [is_same_address] rejects is then dropped: the session
    is exactly as it was, nothing is emitted and delivery stays armed.
    The callback that libuv makes without a sender, as it does when the
    socket has no further datagram, reads the family of the null sender
    in [is_same_address]: the handler faults, and so does every run in
    which such a callback follows a rejected datagram.  A datagram from
    a sender that [is_same_address] accepts stops delivery, copies and
    reports [min n data_size] bytes, completes the request with
    [error_none] and empties the slot, the rest of the session being as
    [receive] left it. *)
Theorem filtered_datagram_receive (o : inet_socket) (data : ptr)
    (data_size : Z) (p : ptr) (filter : saddress) (flags : Z) (r : request)
    (callback : option Z) (arriving : list byte) (n : Z) (a : sockaddr) :
  opaque_handle_ o <> None ->
  recv_done_info_ o = None ->
  protocol_ o = INET_UDP_PROTOCOL_ID ->
  family_ filter <> INVALID_FAMILY_ID ->
  UV_EOF < 0 ->
  0 <= n ->
  0 <= data_size < 4294967296 ->
  let armed :=
    set_temp_buffer_ arriving
      (set_listen_addr_ filter
         (set_recv_done_info_ (Some r)
            (set_take_available_only_
               (negb (Z.land flags SOCKET_FLAG_DONT_WAIT_FULL =? 0))
               (set_receive_done_cb_ callback
                  (set_recv_size_ data_size
                     (set_read_dest_ data (set_bytes_read_ (Some p) o))))))) in
  run (receive data data_size (Some p) (Some filter) flags (Some r) callback ;;
       prepare_buffer_for_recv arriving) o
  = Ok (tt, mk_state armed [Post task_udp_recv_start])
  /\ (is_same_address filter a = false ->
      run (handle_udp_delivery n (Some a)) armed = Ok (tt, mk_state armed []))
  /\ (forall status,
        run (handle_udp_delivery status None) armed = Fault null_dereference)
  /\ (is_same_address filter a = false ->
      forall later status,
        run (receive data data_size (Some p) (Some filter) flags (Some r)
               callback ;;
             prepare_buffer_for_recv arriving ;;
             handle_udp_delivery n (Some a) ;;
             prepare_buffer_for_recv later ;;
             handle_udp_delivery status None) o
        = Fault null_dereference)
  /\ (is_same_address filter a = true ->
      run (handle_udp_delivery n (Some a)) armed
      = Ok (tt,
            mk_state (set_recv_done_info_ None armed)
              [Call uv_udp_recv_stop;
               Memcpy data (firstn (Z.to_nat (Z.min n data_size)) arriving);
               Store32 p (Z.min n data_size);
               Lock; Complete r error_none; Unlock])).
Proof.
  intros Hopen Hidle Hudp Hfilter Heof Hn Hsize armed. subst armed.
  assert (Hne : (n =? UV_EOF) = false) by (apply Z.eqb_neq; lia).
  assert (Hpos : (n <? 0) = false) by (apply Z.ltb_ge; lia).
  assert (Hu : u32 (Z.min n data_size) = Z.min n data_size)
    by (unfold u32; apply Z.mod_small; lia).
  apply Z.eqb_neq in Hfilter.
  destruct o; members_everywhere; subst.
  destruct opaque_handle_0 as [h|]; [|congruence].
  unfold receive, prepare_buffer_for_recv, handle_udp_delivery.
  run_on_members.
  destruct (Z.land flags SOCKET_FLAG_DONT_WAIT_FULL =? 0);
    run_on_members; rewrite !Z.eqb_refl; run_on_members;
    rewrite !Hfilter; run_on_members;
    (split; [reflexivity|]);
    (split; [intros Hsame; rewrite Hsame; reflexivity|]);
    (split; [intros status; reflexivity|]);
    (split; [intros Hsame later status; rewrite Hsame; run_on_members;
            rewrite ?Hfilter; reflexivity|]);
    intros Hsame; rewrite Hsame; run_on_members;
    rewrite ?Hne, ?Hpos, ?Hu; reflexivity.
Qed.

End Reassembly.

(** * Runs on a Linux host *)

Section OnLinux.
#[local] Existing Instance linux_host.

(** ** The sessions above are reached by the methods *)

Lemma listening_session_reached :
  run (receive 1000 16 (Some 2000) (Some peer_10_0_0_1_80) 0 (Some 7) None)
      datagram_session
  = Ok (tt, mk_state listening_session [Post task_udp_recv_start]).
Proof. vm_compute. reflexivity. Qed.

(** The host refuses the connect when the posted task starts it, so
    that no request is in flight when the session is closed. *)
Lemma orphaned_connect_session_reached :
  run (open 2048 6 socket_type_stream 0 ;;
       connect peer_10_0_0_1_80 (Some 101) ;;
       close_down []) unopened
  = Ok (tt,
        mk_state orphaned_connect_session
          [Post task_tcp_init; Call initialize_looper;
           Post (task_tcp_connect (sockaddr_in 20480 [10; 0; 0; 1]));
           Post task_close]).
Proof. vm_compute. reflexivity. Qed.

(** ** Stream accumulation *)

(** Chunks of 3, 4 and 5 bytes against a pending receive of 10 bytes
    that waits for the full count: the first two deliveries return
    without completing, the third completes with exactly 10 bytes and
    leaves 2 in the accumulator. *)
Lemma chunks_3_4_5_wait_for_full :
  run (receive 1000 10 (Some 2000) None 0 (Some 7) None ;;
       first <- handle_tcp_delivery 3 [1; 2; 3] ;;
       second <- handle_tcp_delivery 4 [4; 5; 6; 7] ;;
       before <- events_so_far ;;
       third <- handle_tcp_delivery 5 [8; 9; 10; 11; 12] ;;
       ret (first, second, before, third)) stream_session
  = Ok ((false, false, [Post task_read_start], true),
        mk_state
          (set_stream_data_buffer_ (Some [11; 12])
             (set_recv_size_ 10
                (set_read_dest_ 1000
                   (set_bytes_read_ (Some 2000) stream_session))))
          [Post task_read_start;
           Memcpy 1000 [1; 2; 3; 4; 5; 6; 7; 8; 9; 10];
           Store32 2000 10; Call uv_read_stop; Lock;
           Complete 7 error_none; Unlock]).
Proof. vm_compute. reflexivity. Qed.

(** The same chunks when the receive takes what is available: the first
    delivery completes it with 3 bytes. *)
Lemma chunks_3_4_5_take_available :
  run (receive 1000 10 (Some 2000) None SOCKET_FLAG_DONT_WAIT_FULL (Some 7)
         None ;;
       handle_tcp_delivery 3 [1; 2; 3]) stream_session
  = Ok (true,
        mk_state
          (set_take_available_only_ true
             (set_recv_size_ 10
                (set_read_dest_ 1000
                   (set_bytes_read_ (Some 2000) stream_session))))
          [Post task_read_start; Memcpy 1000 [1; 2; 3]; Store32 2000 3;
           Call uv_read_stop; Lock; Complete 7 error_none; Unlock]).
Proof. vm_compute. reflexivity. Qed.

(** ** Delivery after a cancel *)

(** A datagram that arrives after [cancel_receive] has completed and
    emptied the receive slot, before the posted stop has run. *)
Lemma delivery_after_cancel_receive :
  run (receive 1000 16 (Some 2000) None 0 (Some 7) None ;;
       cancel_receive ;;
       prepare_buffer_for_recv [1; 2; 3; 4; 5] ;;
       handle_udp_delivery 5 (Some (sockaddr_in 20480 [10; 0; 0; 1])))
      datagram_session
  = Fault null_dereference.
Proof. vm_compute. reflexivity. Qed.

(** ** Counterexamples *)

(** C2.  A connect, a send and a receive are pending, and the connect
    and the write request are in flight.  [close_down] posts the close;
    libuv calls the two requests back as cancelled, with the status
    [UV_ECANCELED], which is -125 on this host, and they complete the
    connect and the send with [error_general]; the receive is not
    completed and stays pending.  None of the three requests is
    completed with [error_cancel].  With no request in flight the posted
    close is the only event and all three stay pending. *)
Lemma close_down_cancels_nothing :
  run (close_down [connect_cb (-125); send_cb (-125)]) busy_session
  = Ok (tt,
        mk_state
          (closed
             (set_protocol_ 0
                (set_opaque_handle_ None
                   (called_back None None None busy_session))))
          [Post task_close; Complete 101 error_general;
           Lock; Complete 102 error_general; Unlock])
  /\ times_completed 101 error_cancel
       [Post task_close; Complete 101 error_general;
        Lock; Complete 102 error_general; Unlock] <> 1%nat
  /\ times_completed 102 error_cancel
       [Post task_close; Complete 101 error_general;
        Lock; Complete 102 error_general; Unlock] <> 1%nat
  /\ times_completed 103 error_cancel
       [Post task_close; Complete 101 error_general;
        Lock; Complete 102 error_general; Unlock] <> 1%nat
  /\ recv_done_info_
       (closed
          (set_protocol_ 0
             (set_opaque_handle_ None
                (called_back None None None busy_session))))
     = Some 103
  /\ run (close_down []) busy_session
     = Ok (tt,
           mk_state
             (closed (set_protocol_ 0 (set_opaque_handle_ None busy_session)))
             [Post task_close])
  /\ connect_done_info_
       (closed (set_protocol_ 0 (set_opaque_handle_ None busy_session)))
     = Some 101
  /\ send_done_info_
       (closed (set_protocol_ 0 (set_opaque_handle_ None busy_session)))
     = Some 102
  /\ recv_done_info_
       (closed (set_protocol_ 0 (set_opaque_handle_ None busy_session)))
     = Some 103.
Proof.
  split; [vm_compute; reflexivity|].
  split; [vm_compute; discriminate|].
  split; [vm_compute; discriminate|].
  split; [vm_compute; discriminate|].
  split; [vm_compute; reflexivity|].
  split; [vm_compute; reflexivity|].
  split; [vm_compute; reflexivity|].
  split; vm_compute; reflexivity.
Qed.

(** C6.  A connect is pending, for request 101, on a session without a
    native handle; a second connect, for request 7, is completed with
    [error_not_ready] and not with [error_in_use]. *)
Lemma connect_pending_without_handle :
  connect_done_info_ orphaned_connect_session = Some 101
  /\ run (connect peer_10_0_0_1_80 (Some 7)) orphaned_connect_session
     = Ok (tt, mk_state orphaned_connect_session [Complete 7 error_not_ready])
  /\ run (connect peer_10_0_0_1_80 (Some 7)) orphaned_connect_session
     <> Ok (tt, mk_state orphaned_connect_session [Complete 7 error_in_use]).
Proof.
  repeat split; vm_compute; (reflexivity || discriminate).
Qed.

(** C7.  [bind] on an opened session posts nothing to the looper: the
    host bind is a call on the calling thread. *)
Lemma bind_posts_nothing :
  events_of (run (bind peer_10_0_0_1_80 (Some 7) 0) datagram_session)
  = [Call (uv_udp_bind (sockaddr_in 20480 [10; 0; 0; 1]));
     Complete 7 error_none]
  /\ posted (events_of (run (bind peer_10_0_0_1_80 (Some 7) 0)
                          datagram_session))
     = []
  /\ forall t,
       ~ In (Post t)
            (events_of (run (bind peer_10_0_0_1_80 (Some 7) 0)
                          datagram_session)).
Proof.
  split; [reflexivity|]. split; [reflexivity|].
  intros t. vm_compute. intuition discriminate.
Qed.

(** C8.  The code that completes a connect whose native result is
    "address in use" is the code that refuses a second connect.  No
    naming of the codes of the source makes the one [InUse] and the
    other [AddressInUse]. *)
Lemma address_in_use_is_in_use :
  ~ exists name : epoc_error -> guest_result,
      (forall c,
         events_of (run (connect peer_10_0_0_1_80 (Some 7)) busy_session)
         = [Complete 7 c] -> name c = InUse)
      /\ (forall c,
            events_of (run (handle_connect_done_error_code UV_EADDRINUSE)
                         busy_session)
            = [Complete 101 c] -> name c = AddressInUse).
Proof.
  intros (name & Hsecond & Hnative).
  specialize (Hsecond error_in_use eq_refl).
  specialize (Hnative error_in_use eq_refl).
  congruence.
Qed.

(** ** The theorems at concrete inputs *)

Lemma send_receive_before_open_witness :
  opaque_handle_ unopened = None
  /\ send_done_info_ unopened = None
  /\ recv_done_info_ unopened = None
  /\ ~ In (Complete 7 error_not_ready)
          (events_of (run (send 1000 20 (Some 2000) None 0 (Some 7)) unopened))
  /\ ~ In (Complete 7 error_not_ready)
          (events_of
             (run (receive 1000 20 (Some 2000) None 0 (Some 7) None) unopened))
  /\ run (send 1000 20 (Some 2000) None 0 (Some 7)) unopened
     = Fault null_dereference
  /\ run (receive 1000 20 (Some 2000) None 0 (Some 7) None) unopened
     = Fault null_dereference.
Proof.
  destruct (send_receive_before_open unopened 1000 20 (Some 2000) None 0 7
              None eq_refl eq_refl eq_refl) as (Hsend & Hrecv & Hfault).
  destruct Hfault as (Hfs & Hfr);
    [vm_compute; discriminate|reflexivity|reflexivity|].
  repeat split; assumption.
Defined.

Lemma close_down_never_cancels_witness :
  legal_pair socket_type_stream 6
  /\ 0 <= 0
  /\ exists o' tr,
       run (close_down [connect_cb (-125); send_cb (-125)]) busy_session
       = Ok (tt, mk_state o' tr)
       /\ tr = [Post task_close; Complete 101 error_general;
                Lock; Complete 102 error_general; Unlock]
       /\ (forall r, times_completed r error_cancel tr = 0%nat)
       /\ connect_done_info_ o' = None
       /\ send_done_info_ o' = None
       /\ recv_done_info_ o' = Some 103
       /\ opaque_handle_ o' = None
       /\ (forall again, run (close_down again) o' = Ok (tt, mk_state o' []))
       /\ exists o'' tr',
            run (open 2048 6 socket_type_stream 0) o'
            = Ok (true, mk_state o'' tr')
            /\ opaque_handle_ o'' <> None.
Proof.
  assert (Hlegal : legal_pair socket_type_stream 6)
    by (right; split; reflexivity).
  assert (Hres : 0 <= 0) by discriminate.
  split; [exact Hlegal|]. split; [exact Hres|].
  destruct (close_down_never_cancels busy_session
              [connect_cb (-125); send_cb (-125)] 2048 6
              socket_type_stream 0 Hlegal Hres)
    as (o' & tr & Hrun & _ & Hcancel & Hr & Hc & Hs & _ & _ & _ & Hgeneral
        & Hh & _ & _ & _ & Hagain & Hopen).
  exists o', tr.
  split; [exact Hrun|].
  split.
  { apply (Hgeneral 101 102 (-125) (-125)); try reflexivity;
      try (vm_compute; discriminate).
    vm_compute. intros Hin.
    repeat (destruct Hin as [Hin|Hin]; [discriminate|]). exact Hin. }
  split; [exact Hcancel|].
  split; [exact Hc|]. split; [exact Hs|]. split; [exact Hr|].
  split; [exact Hh|]. split; [exact Hagain|]. exact Hopen.
Defined.

Lemma open_failure_keeps_handle_witness :
  legal_pair socket_type_stream 6
  /\ opaque_handle_ unopened = None
  /\ -1 < 0
  /\ exists o' tr,
       run (open 2048 6 socket_type_stream (-1)) unopened
       = Ok (false, mk_state o' tr)
       /\ opaque_handle_ o' <> None
       /\ protocol_ o' = protocol_ unopened
       /\ run (open 2048 6 socket_type_stream 0) o'
          = Ok (false, mk_state o' []).
Proof.
  assert (Hlegal : legal_pair socket_type_stream 6)
    by (right; split; reflexivity).
  assert (Hres : -1 < 0) by reflexivity.
  split; [exact Hlegal|]. split; [reflexivity|]. split; [exact Hres|].
  exact (open_failure_keeps_handle unopened 2048 6 socket_type_stream (-1) 0
           Hlegal eq_refl Hres).
Defined.

Lemma receive_compares_sizes_backwards_witness :
  (exists o',
     run (receive 1000 10 (Some 2000) None 0 (Some 7) None) twelve_buffered
     = Ok (tt, mk_state o' [])
     /\ recv_done_info_ o' = Some 7
     /\ stream_data_buffer_ o'
        = Some [1; 2; 3; 4; 5; 6; 7; 8; 9; 10; 11; 12])
  /\ (exists o' tr,
        run (receive 1000 10 (Some 2000) None 0 (Some 7) None) two_buffered
        = Ok (tt, mk_state o' tr)
        /\ In (Memcpy 1000 [11; 12]) tr
        /\ completions tr = [Complete 7 error_none]
        /\ posted tr = []
        /\ recv_done_info_ o' = None).
Proof.
  split.
  - apply (receive_compares_sizes_backwards twelve_buffered
             [1; 2; 3; 4; 5; 6; 7; 8; 9; 10; 11; 12] 1000 10 (Some 2000)
             None 0 7 eq_refl);
      [vm_compute; discriminate|reflexivity|reflexivity|].
    vm_compute. split; [discriminate|reflexivity].
  - apply (receive_compares_sizes_backwards two_buffered [11; 12] 1000 10
             (Some 2000) None 0 7 eq_refl);
      [vm_compute; discriminate|reflexivity|reflexivity|].
    vm_compute. split; reflexivity.
Defined.

Lemma filter_rejects_its_own_address_witness :
  family_ (listen_addr_ listening_session) = INET_ADDRESS_FAMILY
  /\ INET_ADDRESS_FAMILY <> INVALID_FAMILY_ID
  /\ htons (u16 (port_ (listen_addr_ listening_session)))
     <> port_ (listen_addr_ listening_session)
  /\ run (handle_udp_delivery 5
            (Some (sockaddr_in 20480 [10; 0; 0; 1]))) listening_session
     = Ok (tt, mk_state listening_session []).
Proof.
  assert (Hvalid : INET_ADDRESS_FAMILY <> INVALID_FAMILY_ID)
    by (vm_compute; discriminate).
  assert (Hswap : htons (u16 (port_ (listen_addr_ listening_session)))
                  <> port_ (listen_addr_ listening_session))
    by (vm_compute; discriminate).
  split; [reflexivity|]. split; [exact Hvalid|]. split; [exact Hswap|].
  exact (filter_rejects_its_own_address listening_session 5 eq_refl Hvalid
           Hswap).
Defined.

Lemma second_operation_in_use_witness :
  run (connect peer_10_0_0_1_80 (Some 7)) busy_session
  = Ok (tt, mk_state busy_session [Complete 7 error_in_use])
  /\ run (send 1000 20 (Some 2000) None 0 (Some 7)) busy_session
     = Ok (tt, mk_state busy_session [Complete 7 error_in_use])
  /\ run (receive 1000 20 (Some 2000) None 0 (Some 7) None) busy_session
     = Ok (tt, mk_state busy_session [Complete 7 error_in_use])
  /\ connect_done_info_ orphaned_connect_session = Some 101
  /\ run (connect peer_10_0_0_1_80 (Some 7)) orphaned_connect_session
     = Ok (tt, mk_state orphaned_connect_session [Complete 7 error_not_ready]).
Proof.
  destruct (second_operation_in_use busy_session peer_10_0_0_1_80 1000 20
              (Some 2000) None 0 7 None) as (Hc & Hs & Hr & _).
  destruct (second_operation_in_use orphaned_connect_session
              peer_10_0_0_1_80 1000 20 (Some 2000) None 0 7 None)
    as (_ & _ & _ & Hn).
  split; [apply Hc; vm_compute; discriminate|].
  split; [apply Hs; vm_compute; discriminate|].
  split; [apply Hr; vm_compute; discriminate|].
  split; [reflexivity|].
  apply Hn. reflexivity.
Defined.

Lemma bind_calls_host_directly_witness :
  run (bind peer_10_0_0_1_80 (Some 7) (-1)) unopened
  = Ok (tt, mk_state unopened [Complete 7 error_not_ready])
  /\ run (bind peer_10_0_0_1_80 (Some 7) (-1)) datagram_session
     = Ok (tt,
           mk_state datagram_session
             [Call (uv_udp_bind (sockaddr_in 20480 [10; 0; 0; 1]));
              Complete 7 error_none]).
Proof.
  split.
  - apply (bind_calls_host_directly unopened peer_10_0_0_1_80 7 (-1)).
    reflexivity.
  - destruct (bind_calls_host_directly datagram_session peer_10_0_0_1_80 7
                (-1)) as (_ & Hopened).
    destruct Hopened as (Hrun & _); [vm_compute; discriminate|].
    exact Hrun.
Defined.

Lemma linux_switch_labels :
  NoDup switch_labels /\ ~ In 0 switch_labels.
Proof.
  split.
  - unfold switch_labels.
    repeat (constructor; [vm_compute; intuition discriminate|]).
    constructor.
  - vm_compute. intuition discriminate.
Defined.

Lemma connect_error_mapping_witness :
  connect_done_info_ busy_session = Some 101
  /\ NoDup switch_labels
  /\ ~ In 0 switch_labels
  /\ run (handle_connect_done_error_code UV_ECONNREFUSED) busy_session
     = Ok (tt,
           mk_state (set_connect_done_info_ None busy_session)
             [Complete 101 error_server_busy]).
Proof.
  destruct linux_switch_labels as (Hnd & Hnz).
  split; [reflexivity|]. split; [exact Hnd|]. split; [exact Hnz|].
  destruct (connect_error_mapping busy_session 101 UV_ECONNREFUSED eq_refl
              Hnd Hnz)
    as (code & Hrun & _ & _ & _ & _ & _ & Hrefused & _).
  rewrite Hrun, (Hrefused eq_refl). reflexivity.
Defined.

Lemma delivery_without_pending_receive_witness :
  recv_done_info_ datagram_session = None
  /\ run (handle_udp_delivery 5 (Some (sockaddr_in 20480 [10; 0; 0; 1])))
       datagram_session
     = Fault null_dereference
  /\ recv_done_info_ stream_session = None
  /\ run (handle_tcp_delivery UV_EOF []) stream_session
     = Fault null_dereference.
Proof.
  split; [reflexivity|]. split.
  - apply (delivery_without_pending_receive datagram_session 5
             (Some (sockaddr_in 20480 [10; 0; 0; 1])) [] eq_refl).
    reflexivity.
  - split; [reflexivity|].
    apply (delivery_without_pending_receive stream_session UV_EOF None []
             eq_refl).
    left. reflexivity.
Defined.

End OnLinux.

(** * Runs on a Windows host *)

Lemma enumeration_retries_forever_witness :
  @EKA2L1_PLATFORM_WIN32 windows_host = true
  /\ @start_enumerate_network_interfaces windows_host 1000
       (fun _ => query_buffer_overflow) unopened
     = None.
Proof.
  split; [reflexivity|].
  exact (@enumeration_retries_forever windows_host 1000 unopened eq_refl).
Defined.

(** * The further properties at concrete inputs *)

Section FurtherRunsOnLinux.
#[local] Existing Instance linux_host.
#[local] Existing Instance answering_host.
#[local] Existing Instance some_option_ids.


Lemma connect_then_native_completion_witness :
  opaque_handle_ stream_session <> None
  /\ connect_done_info_ stream_session = None
  /\ exists o',
       run (connect peer_10_0_0_1_80 (Some 7) ;;
            complete_connect_done_info 0) stream_session
       = Ok (tt,
             mk_state o'
               [Post (task_tcp_connect (sockaddr_in 20480 [10; 0; 0; 1]));
                Complete 7 error_none])
       /\ connect_done_info_ o' = None.
Proof.
  assert (Hopen : opaque_handle_ stream_session <> None)
    by (vm_compute; discriminate).
  split; [exact Hopen|]. split; [reflexivity|].
  destruct (connect_then_native_completion stream_session peer_10_0_0_1_80 7
              0 Hopen eq_refl)
    as (o' & code & Hrun & Hzero & _ & Hslot & _).
  exists o'. rewrite (Hzero eq_refl) in Hrun.
  split; [exact Hrun|exact Hslot].
Defined.

Lemma unfiltered_datagram_receive_witness :
  family_ (listen_addr_ stale_filter_session) <> INVALID_FAMILY_ID
  /\ exists o',
       run (receive 1000 3 (Some 2000) None 0 (Some 7) None ;;
            prepare_buffer_for_recv [1; 2; 3; 4; 5] ;;
            handle_udp_delivery 5 (Some (sockaddr_in 1 [9; 9; 9; 9])))
           stale_filter_session
       = Ok (tt,
             mk_state o'
               [Post task_udp_recv_start; Call uv_udp_recv_stop;
                Memcpy 1000 [1; 2; 3]; Store32 2000 3;
                Lock; Complete 7 error_none; Unlock]).
Proof.
  split; [vm_compute; discriminate|].
  destruct (unfiltered_datagram_receive stale_filter_session 1000 3 2000 0 7
              None [1; 2; 3; 4; 5] 5 (sockaddr_in 1 [9; 9; 9; 9]))
    as (o' & Hrun & _);
    [vm_compute; discriminate|reflexivity|reflexivity|reflexivity
    |discriminate|split; [discriminate|reflexivity]|].
  exists o'. exact Hrun.
Defined.


Lemma tcp_delivery_error_status_witness :
  recv_done_info_ waiting_session = Some 7
  /\ opaque_connect_ waiting_session <> None
  /\ exists o',
       run (handle_tcp_delivery (-104) []) waiting_session
       = Ok (true,
             mk_state o'
               [Call uv_read_stop; Lock; Complete 7 error_general; Unlock])
       /\ stream_data_buffer_ o' = Some [1; 2; 3; 4; 5; 6; 7].
Proof.
  assert (Hconn : opaque_connect_ waiting_session <> None)
    by (vm_compute; discriminate).
  split; [reflexivity|]. split; [exact Hconn|].
  destruct (tcp_delivery_error_status waiting_session (-104) [] 7 eq_refl
              Hconn ltac:(right; reflexivity))
    as (o' & Hrun & _ & _ & Hbuf).
  exists o'. split; [exact Hrun|exact Hbuf].
Defined.


Lemma tcp_delivery_conserves_bytes_witness :
  recv_done_info_ waiting_session = Some 7
  /\ exists done st,
       run (handle_tcp_delivery 5 [8; 9; 10; 11; 12]) waiting_session
       = Ok (done, st)
       /\ copied 1000 (trace st) ++ accumulated (self st)
          = [1; 2; 3; 4; 5; 6; 7; 8; 9; 10; 11; 12].
Proof.
  split; [reflexivity|].
  destruct (tcp_delivery_conserves_bytes waiting_session 5
              [8; 9; 10; 11; 12] 7)
    as (done & st & Hrun & Hbytes & _);
    [reflexivity|vm_compute; discriminate|reflexivity|discriminate
    |vm_compute; discriminate|vm_compute; discriminate|].
  exists done, st. split; [exact Hrun|exact Hbytes].
Defined.

Lemma stream_reassembly_witness :
  recv_done_info_ armed_session = Some 7
  /\ take_available_only_ armed_session = false
  /\ exists o',
       run (before <- deliveries [[1; 2; 3]; [4; 5; 6; 7]] ;;
            done <- handle_tcp_delivery 5 [8; 9; 10; 11; 12] ;;
            ret (before, done)) armed_session
       = Ok (([false; false], true),
             mk_state o'
               [Memcpy 1000 [1; 2; 3; 4; 5; 6; 7; 8; 9; 10];
                Store32 2000 10; Call uv_read_stop; Lock;
                Complete 7 error_none; Unlock])
       /\ accumulated o' = [11; 12].
Proof.
  split; [reflexivity|]. split; [reflexivity|].
  destruct (stream_reassembly armed_session [[1; 2; 3]; [4; 5; 6; 7]]
              [8; 9; 10; 11; 12] 7 2000)
    as (o' & Hrun & _ & Hrest);
    [reflexivity|reflexivity|reflexivity|vm_compute; discriminate
    |reflexivity|reflexivity|reflexivity|vm_compute; discriminate
    |vm_compute; discriminate|reflexivity|].
  exists o'. split; [exact Hrun|exact Hrest].
Defined.

Lemma filtered_datagram_receive_witness :
  family_ peer_10_0_0_1_80 <> INVALID_FAMILY_ID
  /\ is_same_address peer_10_0_0_1_80 (sockaddr_in 20480 [10; 0; 0; 1])
     = false
  /\ run (receive 1000 16 (Some 2000) (Some peer_10_0_0_1_80) 0 (Some 7)
            None ;;
          prepare_buffer_for_recv [1; 2; 3; 4; 5])
       datagram_session
     = Ok (tt,
           mk_state (set_temp_buffer_ [1; 2; 3; 4; 5] listening_session)
             [Post task_udp_recv_start])
  /\ run (handle_udp_delivery 5 (Some (sockaddr_in 20480 [10; 0; 0; 1])))
       (set_temp_buffer_ [1; 2; 3; 4; 5] listening_session)
     = Ok (tt,
           mk_state (set_temp_buffer_ [1; 2; 3; 4; 5] listening_session) [])
  /\ run (receive 1000 16 (Some 2000) (Some peer_10_0_0_1_80) 0 (Some 7)
            None ;;
          prepare_buffer_for_recv [1; 2; 3; 4; 5] ;;
          handle_udp_delivery 5 (Some (sockaddr_in 20480 [10; 0; 0; 1])) ;;
          prepare_buffer_for_recv [] ;;
          handle_udp_delivery 0 None)
       datagram_session
     = Fault null_dereference.
Proof.
  assert (Hfilter : family_ peer_10_0_0_1_80 <> INVALID_FAMILY_ID)
    by (vm_compute; discriminate).
  assert (Hreject :
    is_same_address peer_10_0_0_1_80 (sockaddr_in 20480 [10; 0; 0; 1])
    = false) by reflexivity.
  split; [exact Hfilter|]. split; [exact Hreject|].
  destruct (filtered_datagram_receive datagram_session 1000 16 2000
              peer_10_0_0_1_80 0 7 None [1; 2; 3; 4; 5] 5
              (sockaddr_in 20480 [10; 0; 0; 1]))
    as (Harm & Hdrop & _ & Hfault & _);
    [vm_compute; discriminate|reflexivity|reflexivity|exact Hfilter
    |reflexivity|discriminate|split; [discriminate|reflexivity]|].
  split; [exact Harm|].
  split; [exact (Hdrop Hreject)|exact (Hfault Hreject [] 0)].
Defined.



Lemma enumeration_yields_every_interface_witness :
  EKA2L1_PLATFORM_WIN32 = false
  /\ exists o1 o2,
       set_option INET_ENUM_INTERFACES_OPT INET_INTERFACE_CONTROL_OPT_FAMILY
         0 (fun _ => query_success [31; 32; 33]) enumerating_session
       = Some (setopt_done true, o1)
       /\ next_interfaces 5 600 o1
          = Some ([getopt_entry 31 600; getopt_entry 32 600;
                   getopt_entry 33 600; getopt_error error_eof;
                   getopt_error error_eof],
                  o2).
Proof.
  split; [reflexivity|].
  exact (enumeration_yields_every_interface enumerating_session 0
           (fun _ => query_success [31; 32; 33]) [31; 32; 33] 2 eq_refl
           eq_refl ltac:(discriminate)).
Defined.

Lemma failed_refresh_forgets_snapshot_witness :
  opaque_interface_info_ enumerating_session <> None
  /\ exists o1,
       set_option INET_ENUM_INTERFACES_OPT INET_INTERFACE_CONTROL_OPT_FAMILY
         0 (fun _ => query_error (-1)) enumerating_session
       = Some (setopt_done false, o1)
       /\ get_option INET_NEXT_INTERFACE_OPT
            INET_INTERFACE_CONTROL_OPT_FAMILY 600 o1
          = Some (getopt_error error_not_ready, o1).
Proof.
  split; [vm_compute; discriminate|].
  exact (failed_refresh_forgets_snapshot enumerating_session 0
           (fun _ => query_error (-1)) 600 eq_refl
           ltac:(intros entries; discriminate)).
Defined.

Lemma open_refuses_without_effect_witness :
  opaque_handle_ stream_session <> None
  /\ run (open 2048 6 socket_type_stream 0) stream_session
     = Ok (false, mk_state stream_session [])
  /\ ~ legal_pair socket_type_datagram 6
  /\ run (open 2048 6 socket_type_datagram 0) unopened
     = Ok (false, mk_state unopened []).
Proof.
  assert (Hopen : opaque_handle_ stream_session <> None)
    by (vm_compute; discriminate).
  assert (Hillegal : ~ legal_pair socket_type_datagram 6).
  { intros [[_ Hudp]|[Hstream _]]; discriminate. }
  split; [exact Hopen|]. split.
  - exact (open_refuses_without_effect stream_session 2048 6
             socket_type_stream 0 (or_intror Hopen)).
  - split; [exact Hillegal|].
    exact (open_refuses_without_effect unopened 2048 6 socket_type_datagram 0
             (or_introl Hillegal)).
Defined.

Lemma make_socket_result_witness :
  opaque_handle_ unopened = None
  /\ legal_pair socket_type_datagram 17
  /\ (exists sock tr,
        run (make_socket 2048 17 socket_type_datagram 0) unopened
        = Ok (Some sock, mk_state sock tr)
        /\ opaque_handle_ sock <> None
        /\ protocol_ sock = 17)
  /\ exists o',
       run (make_socket 2048 17 socket_type_datagram (-12)) unopened
       = Ok (None,
             mk_state o'
               [Post task_udp_init; Call initialize_looper; Post task_close])
       /\ opaque_handle_ o' = None.
Proof.
  assert (Hlegal : legal_pair socket_type_datagram 17)
    by (left; split; reflexivity).
  split; [reflexivity|]. split; [exact Hlegal|]. split.
  - destruct (make_socket_result unopened 2048 17 socket_type_datagram 0
                eq_refl) as (Hmade & _ & _).
    apply Hmade; [exact Hlegal|discriminate].
  - destruct (make_socket_result unopened 2048 17 socket_type_datagram (-12)
                eq_refl) as (_ & _ & Hfailed).
    apply Hfailed; [exact Hlegal|reflexivity].
Defined.

End FurtherRunsOnLinux.

Section FurtherRunsOnWindows.
#[local] Existing Instance windows_host.
#[local] Existing Instance some_option_ids.

Lemma enumeration_on_win32_witness :
  EKA2L1_PLATFORM_WIN32 = true
  /\ opaque_interface_info_ enumerating_session <> Some released
  /\ set_option INET_ENUM_INTERFACES_OPT INET_INTERFACE_CONTROL_OPT_FAMILY
       5 (fun _ => query_success [41; 42]) enumerating_session
     = Some (setopt_done true,
             set_opaque_interface_info_current_ [41; 42]
               (set_opaque_interface_info_ (Some (ifaddrs [41; 42]))
                  enumerating_session))
  /\ set_option INET_ENUM_INTERFACES_OPT INET_INTERFACE_CONTROL_OPT_FAMILY
       5 (fun _ => query_error 87) enumerating_session
     = Some (setopt_done false,
             set_opaque_interface_info_ (Some released) enumerating_session)
  /\ get_option INET_NEXT_INTERFACE_OPT INET_INTERFACE_CONTROL_OPT_FAMILY 600
       (set_opaque_interface_info_ (Some released) enumerating_session)
     = None.
Proof.
  assert (Hlive : opaque_interface_info_ enumerating_session <> Some released)
    by discriminate.
  split; [reflexivity|]. split; [exact Hlive|].
  destruct (enumeration_on_win32 (K := windows_host) (I := some_option_ids)
              enumerating_session 5 (fun _ => query_success [41; 42]) 600
              eq_refl Hlive ltac:(lia)) as (Hthen & _).
  destruct (enumeration_on_win32 (K := windows_host) (I := some_option_ids)
              enumerating_session 5 (fun _ => query_error 87) 600
              eq_refl Hlive ltac:(lia)) as (_ & Helse).
  destruct (Helse 87 eq_refl) as (Hfalse & Hnext).
  split; [exact (Hthen [41; 42] eq_refl ltac:(discriminate))|].
  split; [exact Hfalse|exact Hnext].
Defined.

End FurtherRunsOnWindows.
